(** * gcal-audit: calendar time audit, categorisation and report engine

    A shallow embedding of the three variants of the engine,

      - [Analyze]       src/analyze.py        (module-level functions),
      - [GCalAnalyzer]  src/gcal/analyze.py   (class [GCalAnalyzer]),
      - [GCalAuditor]   src/gcal/audit.py     (class [GCalAuditor]),

    and the properties of the categorisation and aggregation engine.

    Modelling conventions.
    - A Python [str] is a [string]; its characters are read as code points
      below 256.
    - A Python [dict] is an association list in insertion order: the
      engine relies on that order (ties of the final sort).
    - Timestamps carry whole seconds, as the calendar service sends them.
      A duration [timedelta.total_seconds()] is then an integral float;
      sums of integral floats are exact below 2^53, so durations are [Z].
      The one place where binary floating point shows is the percentage
      column; it is computed with the kernel's binary64 floats.
    - [print] appends to an explicit standard output; exceptions are an
      explicit result. *)

From Stdlib Require Import ZArith List String Ascii Bool Lia.
From Stdlib Require Import Floats Uint63 DecimalString.
From Stdlib Require Import Permutation Sorted.
From Equations Require Import Equations.
Import ListNotations.

Local Open Scope string_scope.
Local Open Scope list_scope.
Local Open Scope Z_scope.

(** String concatenation, whatever scope is open. *)
Notation "a +++ b" := (String.append a b) (at level 60, right associativity).

(** ** Python built-ins used by the engine *)

Module Py.

(** *** Strings *)

Definition newline : ascii := ascii_of_nat 10.

(** [str.isspace] on one character: the white space of [str.strip()]. *)
Definition isspace (c : ascii) : bool :=
  let n := nat_of_ascii c in
  ((9 <=? n) && (n <=? 13) || (28 <=? n) && (n <=? 32)
   || (n =? 133) || (n =? 160))%nat.

Fixpoint lstrip (s : string) : string :=
  match s with
  | String c s' => if isspace c then lstrip s' else s
  | EmptyString => EmptyString
  end.

(** Right strip: a character is kept when it is not white space or when
    something is kept after it. *)
Fixpoint rstrip (s : string) : string :=
  match s with
  | String c s' =>
      match rstrip s' with
      | EmptyString => if isspace c then EmptyString else String c EmptyString
      | r => String c r
      end
  | EmptyString => EmptyString
  end.

(** [s.strip()] *)
Definition strip (s : string) : string := rstrip (lstrip s).

(** [s.split(sep)] for a one-character separator: never the empty list. *)
Fixpoint split (sep : ascii) (s : string) : list string :=
  match s with
  | EmptyString => [EmptyString]
  | String c s' =>
      if Ascii.eqb c sep then EmptyString :: split sep s'
      else match split sep s' with
           | piece :: rest => String c piece :: rest
           | [] => [String c EmptyString]
           end
  end.

(** ["-" * n] and friends *)
Fixpoint repeat_char (c : ascii) (n : nat) : string :=
  match n with
  | O => EmptyString
  | S n' => String c (repeat_char c n')
  end.

(** [f"{s:^w}"]: the left padding is the smaller half. *)
Definition center (s : string) (w : nat) : string :=
  let pad := (w - String.length s)%nat in
  let l := Nat.div pad 2 in
  repeat_char " " l +++ s +++ repeat_char " " (pad - l).

(** [f"{s:w}"] on a [str]: left aligned. *)
Definition ljust (s : string) (w : nat) : string :=
  s +++ repeat_char " " (w - String.length s).

(** [str(n)] for an [int]. *)
Definition str_int (n : Z) : string := NilZero.string_of_int (Z.to_int n).

(** [f"{n:02d}"] *)
Definition fmt_02d (n : Z) : string :=
  if (0 <=? n) && (n <? 10) then "0" +++ str_int n else str_int n.

(** *** The regular expression [\[Tags:(.*?)\]]

    [tag_group s] is the captured group of a match that starts with the
    first character of [s]: after the literal ["[Tags:"], the lazy
    [.*?] stops at the first ["]"]; [.] does not match a newline, so a
    newline before any ["]"] makes the match at this position fail. *)

Fixpoint lazy_until_bracket (s : string) : option string :=
  match s with
  | EmptyString => None
  | String c s' =>
      if Ascii.eqb c "]" then Some EmptyString
      else if Ascii.eqb c newline then None
      else option_map (String c) (lazy_until_bracket s')
  end.

Definition tag_group (s : string) : option string :=
  if String.prefix "[Tags:" s
  then lazy_until_bracket (String.substring 6 (String.length s - 6) s)
  else None.

(** [re.findall(r"\[Tags:(.*?)\]", s)]: the groups of the successive
    non-overlapping matches, leftmost first.  [skip] counts the
    characters still covered by the match found last. *)
Fixpoint findall_from (skip : nat) (s : string) : list string :=
  match s with
  | EmptyString => []
  | String _ s' =>
      match skip with
      | S k => findall_from k s'
      | O =>
          match tag_group s with
          | Some g => g :: findall_from (6 + String.length g) s'
          | None => findall_from 0 s'
          end
      end
  end.

Definition findall_tags (s : string) : list string := findall_from 0 s.

(** *** Dictionaries, in insertion order *)

Definition dict := list (string * Z).

(** [d.get(k, default)] *)
Fixpoint get (d : dict) (k : string) (default : Z) : Z :=
  match d with
  | [] => default
  | (k', v) :: d' => if String.eqb k' k then v else get d' k default
  end.

(** [d.update({k: v})]: a key already there keeps its place, a new key
    goes last. *)
Fixpoint update (d : dict) (k : string) (v : Z) : dict :=
  match d with
  | [] => [(k, v)]
  | (k', v') :: d' =>
      if String.eqb k' k then (k', v) :: d' else (k', v') :: update d' k v
  end.

(** [sorted(d.items(), key=lambda item: item[1], reverse=True)].
    Python's sort is stable, also under [reverse=True]: items with equal
    keys keep their order.  The result of a stable sort is determined by
    its input, so an insertion sort stands for it: an item goes in front
    of the first item that is not strictly larger. *)
Fixpoint insert_desc (x : string * Z) (l : list (string * Z)) : list (string * Z) :=
  match l with
  | [] => [x]
  | y :: l' => if snd x <? snd y then y :: insert_desc x l' else x :: l
  end.

Fixpoint sorted_desc (l : list (string * Z)) : list (string * Z) :=
  match l with
  | [] => []
  | x :: l' => insert_desc x (sorted_desc l')
  end.

(** *** Exceptions *)

Inductive exception :=
| ValueError          (* max() arg is an empty sequence *)
| ZeroDivisionError   (* float division by zero *)
| TypeError.          (* arithmetic on None *)

Inductive result (A : Type) :=
| Ok (a : A)
| Raise (e : exception).
Arguments Ok {A} a.
Arguments Raise {A} e.

(** [max(xs)] *)
Definition max (xs : list nat) : result nat :=
  match xs with
  | [] => Raise ValueError
  | x :: xs' => Ok (fold_left Nat.max xs' x)
  end.

(** *** Floats: the percentage column

    [float_of_int] is exact below 2^53.  [x / y] and [x * y] are the
    binary64 operations. *)

Definition float_of_int (z : Z) : float :=
  match z with
  | Z0 => PrimFloat.zero
  | Zpos _ => PrimFloat.of_uint63 (Uint63.of_Z z)
  | Zneg p => PrimFloat.opp (PrimFloat.of_uint63 (Uint63.of_Z (Zpos p)))
  end.

(** A float that is a multiple of 1/100 up to the last bit, as [round(x, 2)]
    returns it, is written by the decimal it is nearest to: sign and
    number of hundredths. *)
Inductive float2 :=
| Hundredths (negative : bool) (h : Z)
| Inf (negative : bool)
| NaN.

(** Round half to even of [n / 2^k]. *)
Definition round_half_even_shift (n : Z) (k : Z) : Z :=
  let q := Z.shiftr n k in
  let r := n - Z.shiftl q k in
  let half := Z.shiftl 1 (k - 1) in
  if r <? half then q
  else if half <? r then q + 1
  else if Z.even q then q else q + 1.

(** [round(x, 2)]: the exact binary value of [x] is rounded, half to
    even, to two places (what the correctly rounded conversion of
    CPython does). *)
Definition round2 (x : float) : float2 :=
  match Prim2SF x with
  | S754_zero s => Hundredths s 0
  | S754_infinity s => Inf s
  | S754_nan => NaN
  | S754_finite s m e =>
      Hundredths s (if 0 <=? e then Z.shiftl (Zpos m * 100) e
                    else round_half_even_shift (Zpos m * 100) (- e))
  end.

Definition digit (n : Z) : ascii := ascii_of_nat (48 + Z.to_nat n).

Definition sign_str (negative : bool) : string := if negative then "-" else "".

(** [str(x)] of such a float, the shortest decimal that reads back as
    [x]: at least one place, no trailing zero beyond it (magnitudes
    below 10^15, where Python does not switch to an exponent). *)
Definition str_float (x : float2) : string :=
  match x with
  | Hundredths s h =>
      sign_str s +++ str_int (h / 100) +++ "." +++
      (if h mod 10 =? 0 then String (digit (h / 10 mod 10)) ""
       else String (digit (h / 10 mod 10)) (String (digit (h mod 10)) ""))
  | Inf s => sign_str s +++ "inf"
  | NaN => "nan"
  end.

(** [f"{x:.2f}"] *)
Definition fmt_2f (x : float2) : string :=
  match x with
  | Hundredths s h =>
      sign_str s +++ str_int (h / 100) +++ "." +++
      String (digit (h / 10 mod 10)) (String (digit (h mod 10)) "")
  | Inf s => sign_str s +++ "inf"
  | NaN => "nan"
  end.

End Py.

Arguments Py.Ok {A} a.
Arguments Py.Raise {A} e.

Import Py.

(** ** Data model *)

Definition SECS_IN_DAY : Z := 86400.
Definition SECS_IN_MINUTE : Z := 60.
Definition MINUTES_IN_HOUR : Z := 60.

(** A [datetime] with a fixed UTC offset: the wall clock in seconds since
    1970-01-01T00:00:00 of its own offset, and the offset in seconds. *)
Record datetime := { wall : Z; utcoffset : Z }.

Module Datetime.

(** The instant, in seconds since the epoch in UTC. *)
Definition timestamp (t : datetime) : Z := wall t - utcoffset t.

(** [(a - b).total_seconds()] *)
Definition sub (a b : datetime) : Z := timestamp a - timestamp b.

(** [a <= b] *)
Definition leb (a b : datetime) : bool := timestamp a <=? timestamp b.

(** [t + timedelta(days=n)] *)
Definition add_days (t : datetime) (n : Z) : datetime :=
  {| wall := wall t + n * 86400; utcoffset := utcoffset t |}.

(** [t.date()], as a day number (days since 1970-01-01). *)
Definition date (t : datetime) : Z := wall t / 86400.

(** Year, month and day of a day number in the proleptic Gregorian
    calendar.  Years run from March, in eras of 400 years. *)
Definition civil (z : Z) : Z * Z * Z :=
  let z := z + 719468 in
  let era := z / 146097 in
  let doe := z - era * 146097 in
  let yoe := (doe - doe / 1460 + doe / 36524 - doe / 146096) / 365 in
  let doy := doe - (365 * yoe + yoe / 4 - yoe / 100) in
  let mp := (5 * doy + 2) / 153 in
  let d := doy - (153 * mp + 2) / 5 + 1 in
  let m := if mp <? 10 then mp + 3 else mp - 9 in
  (yoe + era * 400 + (if m <=? 2 then 1 else 0), m, d).

(** [t.day]: the day of the month, 1 to 31. *)
Definition day (t : datetime) : Z := snd (civil (date t)).

(** [t.weekday()]: Monday is 0. *)
Definition weekday (t : datetime) : Z := (date t + 3) mod 7.

End Datetime.

(** A raw event, as the calendar service lists it
    ([fields="items(start, end, summary, description)"]), its two
    timestamps parsed.  The [description] key can be missing. *)
Record event := {
  start_dateTime : datetime;
  end_dateTime : datetime;
  summary : string;
  description : option string
}.

(** What the engine derives from a raw event before it aggregates. *)
Record NormalizedEvent := {
  duration : Z;
  categories : list string
}.

(** ** Effects: standard output, the log, exceptions *)

(** What [print] writes.  The lines of a report are kept as text; a line
    that embeds a [datetime] keeps the value. *)
Inductive out_item :=
| Line (s : string)
| NoEventsFound (a : datetime) (b : option datetime)
| DayHeading (weekday : Z) (date : Z)
| Flag (b : option bool)
| Prompt (s : string).

Inductive log_item :=
| LogInfo (e : event)
| LogError (msg : string).

Section Monad.

Context {Self : Type}.

Record world := {
  self : Self;
  stdout : list out_item;
  log : list log_item
}.

Definition M (A : Type) : Type := world -> result A * world.

Definition ret {A} (a : A) : M A := fun w => (Ok a, w).

Definition bind {A B} (m : M A) (f : A -> M B) : M B :=
  fun w => match m w with
           | (Ok a, w') => f a w'
           | (Raise e, w') => (Raise e, w')
           end.

Definition lift {A} (r : result A) : M A := fun w => (r, w).

Definition print (o : out_item) : M unit :=
  fun w => (Ok tt, {| self := self w; stdout := stdout w ++ [o]; log := log w |}).

Definition logging (l : log_item) : M unit :=
  fun w => (Ok tt, {| self := self w; stdout := stdout w; log := log w ++ [l] |}).

Definition get_self : M Self := fun w => (Ok (self w), w).

Definition set_self (s : Self) : M unit :=
  fun w => (Ok tt, {| self := s; stdout := stdout w; log := log w |}).

(** [for x in xs: acc = body(acc, x)] *)
Fixpoint for_each {A X} (xs : list X) (acc : A) (body : A -> X -> M A) : M A :=
  match xs with
  | [] => ret acc
  | x :: xs' => bind (body acc x) (fun acc' => for_each xs' acc' body)
  end.

End Monad.

Arguments world Self : clear implicits.
Arguments M Self A : clear implicits.

Notation "x <- m ;; k" := (bind m (fun x => k))
  (at level 100, m at next level, right associativity).
Notation "m ;;; k" := (bind m (fun _ => k))
  (at level 100, right associativity).

(** [x / y] on floats. *)
Definition truediv (x y : Z) : result float :=
  if y =? 0 then Raise ZeroDivisionError
  else Ok (PrimFloat.div (float_of_int x) (float_of_int y)).

(** ** The aggregator, on normalized events

    The three [categorize_events] below share this body: every category
    of an event gets the event's whole duration. *)

Definition add_event (durations : dict) (e : NormalizedEvent) : dict :=
  fold_left (fun durations event_type =>
               update durations event_type (get durations event_type 0 + duration e))
            (categories e) durations.

Definition accumulate (events : list NormalizedEvent) : dict :=
  fold_left add_event events [].

Definition aggregate (events : list NormalizedEvent) : dict :=
  sorted_desc (accumulate events).

(** [round((seconds / total) * 100, 2)] *)
Definition percent (seconds total : Z) : result float2 :=
  match truediv seconds total with
  | Ok q => Ok (round2 (PrimFloat.mul q (float_of_int 100)))
  | Raise e => Raise e
  end.

(** [f"{int(hours)}:{int(minutes):02d}"], hours and minutes by floor
    division. *)
Definition hours_minutes (seconds : Z) : string :=
  let minutes := seconds / SECS_IN_MINUTE in
  let hours := minutes / MINUTES_IN_HOUR in
  let minutes := minutes mod MINUTES_IN_HOUR in
  str_int hours +++ ":" +++ fmt_02d minutes.

(** [f"+{'-' * (len(title)-2)}+"] *)
Definition border (title : string) : string :=
  "+" +++ repeat_char "-" (String.length title - 2) +++ "+".

(** What the calendar service answers to [events().list(...).execute()]. *)
Inductive service_reply :=
| Items (events : list event)
| HttpError (error : string).

(** ** src/analyze.py *)

Module Analyze.

Definition extract_duration (event : event) : Z :=
  Datetime.sub (end_dateTime event) (start_dateTime event).

Definition extract_event_types (event : event) : list string :=
  match description event with
  | None => [summary event]
  | Some d =>
      match findall_tags d with
      | [] => [summary event]
      | m0 :: _ => map strip (split "," m0)
      end
  end.

Definition categorize_events (events : list event) : dict :=
  let durations :=
    fold_left
      (fun durations event =>
         let event_types := extract_event_types event in
         let event_duration := extract_duration event in
         fold_left
           (fun durations event_type =>
              update durations event_type
                     (get durations event_type 0 + event_duration))
           event_types durations)
      events [] in
  sorted_desc durations.

Definition normalize (e : event) : NormalizedEvent :=
  {| duration := extract_duration e; categories := extract_event_types e |}.

Definition title (event_type_max_len : nat) : string :=
  "| " +++ center "Event Type" event_type_max_len +++ " | "
  +++ center "Duration" 8 +++ " | " +++ center "% of Day" 8 +++ " |".

Definition row (event_type_max_len : nat) (event_type : string) (seconds : Z)
  : result string :=
  match percent seconds SECS_IN_DAY with
  | Ok p =>
      Ok ("| " +++ ljust event_type event_type_max_len +++ " | "
          +++ center (hours_minutes seconds) 8 +++ " | "
          +++ center (str_float p) 8 +++ " |")
  | Raise e => Raise e
  end.

Definition print_analysis (categories : dict) : M unit unit :=
  event_type_max_len <-
    lift (max (map (fun item => String.length (fst item)) categories)) ;;
  let title := title event_type_max_len in
  print (Line (border title)) ;;;
  print (Line title) ;;;
  print (Line (border title)) ;;;
  for_each categories tt
    (fun _ item =>
       line <- lift (row event_type_max_len (fst item) (snd item)) ;;
       print (Line line)) ;;;
  print (Line (border title)).

End Analyze.

(** ** src/gcal/analyze.py *)

Module GCalAnalyzer.

Record self_t := {
  _analyze_first_tag_only : bool;
  _total_duration : option Z
}.

Definition extract_duration (event : event) : Z :=
  Datetime.sub (end_dateTime event) (start_dateTime event).

Definition extract_event_categories (self : self_t) (event : event)
  : list string :=
  match description event with
  | None => [summary event]
  | Some d =>
      match findall_tags d with
      | [] => [summary event]
      | m0 :: _ =>
          if _analyze_first_tag_only self
          then [strip (hd "" (split "," m0))]
          else map strip (split "," m0)
      end
  end.

Definition categorize_events (self : self_t) (events : list event) : dict :=
  let durations :=
    fold_left
      (fun durations event =>
         let event_types := extract_event_categories self event in
         let event_duration := extract_duration event in
         fold_left
           (fun durations event_type =>
              update durations event_type
                     (get durations event_type 0 + event_duration))
           event_types durations)
      events [] in
  sorted_desc durations.

Definition normalize (self : self_t) (e : event) : NormalizedEvent :=
  {| duration := extract_duration e;
     categories := extract_event_categories self e |}.

Definition title (event_type_max_len : nat) : string :=
  "| " +++ center "Event Type" event_type_max_len +++ " | "
  +++ center "Duration" 8 +++ " | " +++ center "% of Total" 10 +++ " |".

(** [seconds / self._total_duration], then the percentage. *)
Definition percent_of_total (self : self_t) (seconds : Z) : result float2 :=
  match _total_duration self with
  | None => Raise TypeError
  | Some total => percent seconds total
  end.

Definition row (self : self_t) (event_type_max_len : nat)
           (event_type : string) (seconds : Z) : result string :=
  match percent_of_total self seconds with
  | Ok p =>
      Ok ("| " +++ center event_type event_type_max_len +++ " | "
          +++ center (hours_minutes seconds) 8 +++ " | "
          +++ center (str_float p) 10 +++ " |")
  | Raise e => Raise e
  end.

Definition print_analysis (categories : dict) : M self_t unit :=
  self <- get_self ;;
  event_type_max_len <-
    lift (max (map (fun item => String.length (fst item)) categories)) ;;
  let title := title event_type_max_len in
  print (Line (border title)) ;;;
  print (Line title) ;;;
  print (Line (border title)) ;;;
  tracked_duration <-
    for_each categories 0
      (fun tracked_duration item =>
         line <- lift (row self event_type_max_len (fst item) (snd item)) ;;
         print (Line line) ;;;
         ret (tracked_duration + snd item)) ;;
  print (Line (border title)) ;;;
  if _analyze_first_tag_only self then
    line <- lift (row self event_type_max_len "Total" tracked_duration) ;;
    print (Line line) ;;;
    print (Line (border title))
  else ret tt.

End GCalAnalyzer.

(** ** src/gcal/audit.py *)

(** A value together with the equation that says what it is, for the
    condition of a loop. *)
Definition inspect {A} (a : A) : {b : A | a = b} := exist _ a eq_refl.

(** [s.lower()], on the letters A to Z. *)
Fixpoint lower (s : string) : string :=
  match s with
  | EmptyString => EmptyString
  | String c s' =>
      let n := nat_of_ascii c in
      String (if ((65 <=? n) && (n <=? 90))%nat then ascii_of_nat (n + 32) else c)
             (lower s')
  end.

Module DateInputter.

(** The dates are read from the terminal as text; here a date is its day
    number.  All windows are at UTC-07:00. *)
Definition offset : Z := - (7 * 3600).

Definition input_day (date : Z) : datetime * datetime :=
  ({| wall := date * 86400; utcoffset := offset |},
   {| wall := date * 86400 + 86399; utcoffset := offset |}).

Definition input_week (date : Z) : datetime * datetime :=
  ({| wall := date * 86400; utcoffset := offset |},
   {| wall := (date + 6) * 86400 + 86399; utcoffset := offset |}).

End DateInputter.

Module GCalAuditor.

Record self_t := {
  _audit_first_tag_only : option bool;
  _total_duration : option Z
}.

(** [GCalAuditor()] *)
Definition init : self_t :=
  {| _audit_first_tag_only := None; _total_duration := None |}.

(** Truth value of [self._audit_first_tag_only]. *)
Definition first_tag_only (self : self_t) : bool :=
  match _audit_first_tag_only self with
  | Some b => b
  | None => false
  end.

(** The reply of the calendar service is an argument. *)
Definition query_events (reply : service_reply)
           (start_datetime end_datetime : datetime)
  : M self_t (option (list event)) :=
  self <- get_self ;;
  set_self {| _audit_first_tag_only := _audit_first_tag_only self;
              _total_duration :=
                Some (Datetime.sub end_datetime start_datetime) |} ;;;
  match reply with
  | Items events =>
      for_each events tt (fun _ event => logging (LogInfo event)) ;;;
      ret (Some events)
  | HttpError error =>
      logging (LogError ("An error occurred: " +++ error)) ;;;
      ret None
  end.

Definition extract_event_categories (self : self_t) (event : event)
  : list string :=
  match description event with
  | None => [summary event]
  | Some d =>
      match findall_tags d with
      | [] => [summary event]
      | m0 :: _ =>
          if first_tag_only self
          then [strip (hd "" (split "," m0))]
          else map strip (split "," m0)
      end
  end.

Definition event_duration (event : event) : Z :=
  Datetime.sub (end_dateTime event) (start_dateTime event).

Definition categorize_events (self : self_t) (events : list event) : dict :=
  let durations :=
    fold_left
      (fun durations event =>
         let event_types := extract_event_categories self event in
         let event_duration := event_duration event in
         fold_left
           (fun durations event_type =>
              update durations event_type
                     (get durations event_type 0 + event_duration))
           event_types durations)
      events [] in
  sorted_desc durations.

Definition normalize (self : self_t) (e : event) : NormalizedEvent :=
  {| duration := event_duration e;
     categories := extract_event_categories self e |}.

Definition title (event_type_max_len : nat) : string :=
  "| " +++ center "Event Type" event_type_max_len +++ " | "
  +++ center "Duration" 8 +++ " | " +++ center "% of Total" 10 +++ " |".

Definition percent_of_total (self : self_t) (seconds : Z) : result float2 :=
  match _total_duration self with
  | None => Raise TypeError
  | Some total => percent seconds total
  end.

Definition row (self : self_t) (event_type_max_len : nat)
           (event_type : string) (seconds : Z) : result string :=
  match percent_of_total self seconds with
  | Ok p =>
      Ok ("| " +++ center event_type event_type_max_len +++ " | "
          +++ center (hours_minutes seconds) 8 +++ " | "
          +++ center (fmt_2f p) 10 +++ " |")
  | Raise e => Raise e
  end.

Definition print_analysis (categories : dict) : M self_t unit :=
  self <- get_self ;;
  event_type_max_len <-
    lift (max (map (fun item => String.length (fst item)) categories)) ;;
  let title := title event_type_max_len in
  print (Line (border title)) ;;;
  print (Line title) ;;;
  print (Line (border title)) ;;;
  tracked_duration <-
    for_each categories 0
      (fun tracked_duration item =>
         line <- lift (row self event_type_max_len (fst item) (snd item)) ;;
         print (Line line) ;;;
         ret (tracked_duration + snd item)) ;;
  print (Line (border title)) ;;;
  if first_tag_only self then
    line <- lift (row self event_type_max_len "Total" tracked_duration) ;;
    print (Line line) ;;;
    print (Line (border title))
  else ret tt.

(** [answer] is what the user types at the prompt. *)
Definition set_tag_option (answer : string) : M self_t unit :=
  print (Line "audit the first tag only?") ;;;
  print (Prompt "Enter y/n: ") ;;;
  self <- get_self ;;
  let a := lower answer in
  set_self {| _audit_first_tag_only :=
                Some (String.eqb a "yes" || String.eqb a "y");
              _total_duration := _total_duration self |}.

Definition _audit (reply : service_reply)
           (start_datetime end_datetime : datetime) : M self_t unit :=
  events <- query_events reply start_datetime end_datetime ;;
  match events with
  | None | Some [] =>
      print (NoEventsFound start_datetime (Some end_datetime))
  | Some events =>
      self <- get_self ;;
      let categories := categorize_events self events in
      print_analysis categories
  end.


(** One turn of the loop over the days of the week. *)
Definition audit_week_day (events : list event) (cur_datetime : datetime)
  : M self_t unit :=
  self <- get_self ;;
  set_self {| _audit_first_tag_only := _audit_first_tag_only self;
              _total_duration := Some SECS_IN_DAY |} ;;;
  print (DayHeading (Datetime.weekday cur_datetime)
                    (Datetime.date cur_datetime)) ;;;
  let cur_events :=
    filter (fun event =>
              Datetime.day (start_dateTime event) =? Datetime.day cur_datetime)
           events in
  match cur_events with
  | [] => print (NoEventsFound cur_datetime None)
  | _ =>
      self <- get_self ;;
      let categories := categorize_events self cur_events in
      print_analysis categories
  end.

(** [while cur_datetime <= end_datetime: ...; cur_datetime += timedelta(days=1)] *)
Equations? audit_week_loop (events : list event)
           (end_datetime cur_datetime : datetime) : M self_t unit
  by wf (Z.to_nat (Datetime.sub end_datetime cur_datetime + 1)) lt :=
  audit_week_loop events end_datetime cur_datetime
    with inspect (Datetime.leb cur_datetime end_datetime) => {
    | exist _ true Hle =>
        audit_week_day events cur_datetime ;;;
        audit_week_loop events end_datetime (Datetime.add_days cur_datetime 1)
    | exist _ false _ => ret tt }.
Proof.
  unfold Datetime.leb, Datetime.sub, Datetime.add_days, Datetime.timestamp in *.
  simpl. apply Z.leb_le in Hle. lia.
Qed.


End GCalAuditor.

(** ** src/gcal/audit.py: the datetime range and the fetched range *)

Module AuditRange.

(** A time of day typed as [HH:MM]. *)
Definition clock := (Z * Z)%type.

Definition seconds_of (t : clock) : Z := fst t * 3600 + snd t * 60.

(** [DateInputter.input_datetime_range]: the start date is typed or is
    today's; a time left blank is 00:00 at the start and 23:59 at the end,
    an end date left blank is the start date.  The fields are taken as
    parsed; text that [fromisoformat] rejects is not modelled. *)
Definition input_datetime_range (start_date : Z) (start_time : option clock)
           (end_date : option Z) (end_time : option clock)
  : datetime * datetime :=
  let start_time := match start_time with Some t => t | None => (0, 0) end in
  let end_date := match end_date with Some d => d | None => start_date end in
  let end_time := match end_time with Some t => t | None => (23, 59) end in
  ({| wall := start_date * 86400 + seconds_of start_time;
      utcoffset := DateInputter.offset |},
   {| wall := end_date * 86400 + seconds_of end_time;
      utcoffset := DateInputter.offset |}).


(** The range that [GCalAuditor.query_events] asks the service for:
    [timeMin] is the start of the day of [start_datetime] and [timeMax] the
    last second of the day of [end_datetime], both at UTC-07:00. *)
Definition query_range (start_datetime end_datetime : datetime)
  : datetime * datetime :=
  ({| wall := Datetime.date start_datetime * 86400;
      utcoffset := DateInputter.offset |},
   {| wall := Datetime.date end_datetime * 86400 + 86399;
      utcoffset := DateInputter.offset |}).

End AuditRange.

(** ** src/analyze.py: the fetch and the entry point *)

Module AnalyzeMain.



End AnalyzeMain.

(** ** Vocabulary of the properties *)

(** Sum of the values of a report. *)
Definition sum_values (d : dict) : Z := fold_right Z.add 0 (map snd d).

(** Sum of the durations of the events. *)
Definition sum_durations (events : list NormalizedEvent) : Z :=
  fold_right Z.add 0 (map duration events).

(** The labels of a sequence, each once, in the order in which they are
    met first. *)
Fixpoint first_encounter (l : list string) : list string :=
  match l with
  | [] => []
  | x :: r => x :: filter (fun y => negb (String.eqb y x)) (first_encounter r)
  end.

(** The earlier entry of a report has at least the duration of the later. *)
Definition desc (a b : string * Z) : Prop := snd b <= snd a.

(** The entries of a report with a given duration. *)
Definition with_duration (v : Z) (l : list (string * Z)) : list (string * Z) :=
  filter (fun item => snd item =? v) l.

(** The event has exactly one category. *)
Definition single_category (e : NormalizedEvent) : Prop :=
  List.length (categories e) = 1%nat.

(** The first tag block of the description holds no label: every piece
    between its commas is blank. *)
Definition tag_block_empty (e : event) : Prop :=
  exists d m rest,
    description e = Some d /\ findall_tags d = m :: rest
    /\ Forall (fun piece => strip piece = "") (split "," m).

(** The description holds no tag block at all. *)
Definition no_tag_block (e : event) : Prop :=
  exists d, description e = Some d /\ findall_tags d = [].

(** Sample events: a day at UTC-05:00. *)
Definition at_utc_minus_5 (date hour minute : Z) : datetime :=
  {| wall := date * 86400 + hour * 3600 + minute * 60; utcoffset := - (5 * 3600) |}.

Definition standup : event :=
  {| start_dateTime := at_utc_minus_5 19723 9 0;
     end_dateTime := at_utc_minus_5 19723 10 0;
     summary := "Standup"; description := None |}.

Definition coding : event :=
  {| start_dateTime := at_utc_minus_5 19723 10 0;
     end_dateTime := at_utc_minus_5 19723 12 0;
     summary := "Coding"; description := Some "[Tags: Work]" |}.

(** An event of no length with two tags. *)
Definition instant_two_tags : event :=
  {| start_dateTime := at_utc_minus_5 19723 9 0;
     end_dateTime := at_utc_minus_5 19723 9 0;
     summary := "Ping"; description := Some "[Tags: A, B]" |}.

(** An event whose tag block is empty. *)
Definition lunch_empty_tags : event :=
  {| start_dateTime := at_utc_minus_5 19723 12 0;
     end_dateTime := at_utc_minus_5 19723 13 0;
     summary := "Lunch"; description := Some "[Tags:]" |}.

(** An event that lists one label twice. *)
Definition work_twice : event :=
  {| start_dateTime := at_utc_minus_5 19723 14 0;
     end_dateTime := at_utc_minus_5 19723 15 0;
     summary := "Review"; description := Some "[Tags: Work, Work]" |}.

(** The sum of the report is at least the sum of the durations, and equal
    exactly when every event is [single]. *)
Definition sum_bound_with_equality (single : NormalizedEvent -> Prop)
           (events : list NormalizedEvent) (report : dict) : Prop :=
  sum_durations events <= sum_values report
  /\ (sum_values report = sum_durations events <-> Forall single events).

(** The report is in descending order of duration, its keys are unique, and
    the categories of any one duration come in the order in which the
    events list them first. *)
Definition ranked (labels : list string) (report : dict) : Prop :=
  Sorted desc report
  /\ NoDup (map fst report)
  /\ forall v : Z,
      map fst (with_duration v report)
      = filter (fun k => get report k 0 =? v) (first_encounter labels).

(** [round((seconds / total) * 100, 2)] for a window whose length is not
    zero. *)
Definition percent_value (seconds total : Z) : float2 :=
  round2 (PrimFloat.mul (PrimFloat.div (float_of_int seconds) (float_of_int total))
                        (float_of_int 100)).

(** Width of the first column: the longest label. *)
Definition label_width (categories : dict) : nat :=
  match map (fun item => String.length (fst item)) categories with
  | [] => 0%nat
  | x :: xs => fold_left Nat.max xs x
  end.

(** The table that [GCalAuditor.print_analysis] prints for a window of
    [total] seconds, when nothing is raised. *)
Definition auditor_row (total : Z) (width : nat) (event_type : string)
           (seconds : Z) : string :=
  "| " +++ center event_type width +++ " | "
  +++ center (hours_minutes seconds) 8 +++ " | "
  +++ center (fmt_2f (percent_value seconds total)) 10 +++ " |".

Definition auditor_table (first_tag_only : bool) (total : Z) (categories : dict)
  : list string :=
  let width := label_width categories in
  let title := GCalAuditor.title width in
  [border title; title; border title]
  ++ map (fun item => auditor_row total width (fst item) (snd item)) categories
  ++ [border title]
  ++ (if first_tag_only
      then [auditor_row total width "Total" (sum_values categories); border title]
      else []).

(** The table that [Analyze.print_analysis] prints. *)
Definition analyze_row (width : nat) (event_type : string) (seconds : Z) : string :=
  "| " +++ ljust event_type width +++ " | "
  +++ center (hours_minutes seconds) 8 +++ " | "
  +++ center (str_float (percent_value seconds SECS_IN_DAY)) 8 +++ " |".

Definition analyze_table (categories : dict) : list string :=
  let width := label_width categories in
  let title := Analyze.title width in
  [border title; title; border title]
  ++ map (fun item => analyze_row width (fst item) (snd item)) categories
  ++ [border title].

(** The world after some more output. *)
Definition emit {Self} (w : world Self) (items : list out_item) : world Self :=
  {| self := self w; stdout := stdout w ++ items; log := log w |}.

(** An empty world. *)
Definition fresh {Self} (s : Self) : world Self :=
  {| self := s; stdout := []; log := [] |}.

(** The world once the loop over the days has set the denominator. *)
Definition day_world (w : world GCalAuditor.self_t) : world GCalAuditor.self_t :=
  {| self := {| GCalAuditor._audit_first_tag_only :=
                  GCalAuditor._audit_first_tag_only (self w);
                GCalAuditor._total_duration := Some SECS_IN_DAY |};
     stdout := stdout w;
     log := log w |}.

(** The events that the loop assigns to a day. *)
Definition events_on_day (events : list event) (cur_datetime : datetime)
  : list event :=
  filter (fun event =>
            Datetime.day (start_dateTime event) =? Datetime.day cur_datetime)
         events.

Definition day_heading (cur_datetime : datetime) : out_item :=
  DayHeading (Datetime.weekday cur_datetime) (Datetime.date cur_datetime).

(** What one day of the week adds to the output: its heading, then the
    marker of a day without events or the table of the day, with the
    percentages of [total] seconds. *)
Definition day_section (self : GCalAuditor.self_t) (total : Z)
           (events : list event) (cur_datetime : datetime) : list out_item :=
  day_heading cur_datetime
  :: match events_on_day events cur_datetime with
     | [] => [NoEventsFound cur_datetime None]
     | cur_events =>
         map Line (auditor_table (GCalAuditor.first_tag_only self) total
                                 (GCalAuditor.categorize_events self cur_events))
     end.

(** [n] successive days. *)
Fixpoint days_from (cur_datetime : datetime) (n : nat) : list datetime :=
  match n with
  | O => []
  | S n' => cur_datetime :: days_from (Datetime.add_days cur_datetime 1) n'
  end.

(** The answer at the prompt of [set_tag_option], as a flag. *)
Definition tag_flag (answer : string) : bool :=
  String.eqb (lower answer) "yes" || String.eqb (lower answer) "y".

(** The auditor once the flag and the window are set. *)
Definition auditor_with (flag : bool) (total : Z) : GCalAuditor.self_t :=
  {| GCalAuditor._audit_first_tag_only := Some flag;
     GCalAuditor._total_duration := Some total |}.

(** The text after the first decimal point. *)
Fixpoint after_point (s : string) : option string :=
  match s with
  | EmptyString => None
  | String c s' => if Ascii.eqb c "." then Some s' else after_point s'
  end.

Definition is_digit (c : ascii) : bool :=
  let n := nat_of_ascii c in ((48 <=? n) && (n <=? 57))%nat.

(** Exactly two digits follow the decimal point. *)
Definition two_decimals (s : string) : bool :=
  match after_point s with
  | Some (String a (String b EmptyString)) => is_digit a && is_digit b
  | _ => false
  end.

(** The character occurs in the string. *)
Fixpoint occurs (c : ascii) (s : string) : bool :=
  match s with
  | EmptyString => false
  | String c' s' => Ascii.eqb c' c || occurs c s'
  end.

(** A label as the tag annotation can carry it: trimmed, and free of the
    comma, of the closing bracket and of the newline. *)
Definition plain_label (l : string) : Prop :=
  strip l = l /\ occurs "," l = false /\ occurs "]" l = false
  /\ occurs newline l = false.

(** The pieces with commas between them. *)
Fixpoint join_comma (pieces : list string) : string :=
  match pieces with
  | [] => EmptyString
  | [p] => p
  | p :: rest => p +++ "," +++ join_comma rest
  end.

(** The annotation as it is written in a description: ["[Tags: a, b]"]. *)
Definition tag_annotation (labels : list string) : string :=
  "[Tags:" +++ join_comma (map (fun l => " " +++ l) labels) +++ "]".

(** Number of times a label is listed. *)
Definition occurrences (k : string) (l : list string) : Z :=
  Z.of_nat (count_occ string_dec l k).

(** Sum over the events of the duration, once for each time the event
    lists the label. *)
Definition label_total (k : string) (events : list NormalizedEvent) : Z :=
  fold_right Z.add 0
    (map (fun e => occurrences k (categories e) * duration e) events).

(** Day of the month of a day number. *)
Definition day_of_month (z : Z) : Z := snd (Datetime.civil z).

(** The three steps of [Datetime.civil] for the day of the month: the year
    of a day within its era of 400 years, the first day of a year of the
    era, and the day of the month of a day of a year that begins in March. *)
Definition year_of_era (doe : Z) : Z :=
  (doe - doe / 1460 + doe / 36524 - doe / 146096) / 365.

Definition year_start (y : Z) : Z := 365 * y + y / 4 - y / 100.

Definition day_in_year (doy : Z) : Z :=
  doy - (153 * ((5 * doy + 2) / 153) + 2) / 5 + 1.

(** ** Facts on the built-ins *)

Lemma split_not_nil (sep : ascii) (s : string) : split sep s <> [].
Proof.
  induction s as [|c s IH]; simpl.
  - discriminate.
  - destruct (Ascii.eqb c sep); [discriminate|].
    destruct (split sep s); discriminate.
Qed.

Lemma get_update (d : dict) (k k' : string) (v def : Z) :
  get (update d k v) k' def = if String.eqb k k' then v else get d k' def.
Proof.
  induction d as [|[k0 v0] d IH]; simpl.
  - reflexivity.
  - destruct (String.eqb_spec k0 k) as [->|Hk]; simpl.
    + destruct (String.eqb_spec k k'); reflexivity.
    + rewrite IH.
      destruct (String.eqb_spec k0 k'), (String.eqb_spec k k');
        subst; congruence.
Qed.

Lemma sum_values_update (d : dict) (k : string) (v : Z) :
  sum_values (update d k (get d k 0 + v)) = sum_values d + v.
Proof.
  unfold sum_values.
  induction d as [|[k0 v0] d IH]; simpl.
  - lia.
  - destruct (String.eqb_spec k0 k); simpl; lia.
Qed.

Lemma sum_values_insert_desc (x : string * Z) (l : list (string * Z)) :
  sum_values (insert_desc x l) = snd x + sum_values l.
Proof.
  unfold sum_values.
  induction l as [|y l IH]; simpl; [reflexivity|].
  destruct (snd x <? snd y); simpl; lia.
Qed.

Lemma sum_values_sorted_desc (l : list (string * Z)) :
  sum_values (sorted_desc l) = sum_values l.
Proof.
  induction l as [|x l IH]; simpl; [reflexivity|].
  rewrite sum_values_insert_desc, IH. reflexivity.
Qed.

Lemma insert_desc_perm (x : string * Z) (l : list (string * Z)) :
  Permutation (insert_desc x l) (x :: l).
Proof.
  induction l as [|y l IH]; simpl; [apply Permutation_refl|].
  destruct (snd x <? snd y).
  - rewrite IH. apply perm_swap.
  - apply Permutation_refl.
Qed.

Lemma sorted_desc_perm (l : list (string * Z)) : Permutation (sorted_desc l) l.
Proof.
  induction l as [|x l IH]; simpl; [constructor|].
  rewrite insert_desc_perm. constructor. exact IH.
Qed.

Lemma insert_desc_sorted (x : string * Z) (l : list (string * Z)) :
  Sorted desc l -> Sorted desc (insert_desc x l).
Proof.
  induction 1 as [|y l Hs IH Hhd]; simpl.
  - repeat constructor.
  - destruct (Z.ltb_spec (snd x) (snd y)) as [Hlt|Hge].
    + constructor; [exact IH|].
      destruct Hhd as [|z l' Hz]; simpl.
      * constructor. unfold desc. lia.
      * destruct (snd x <? snd z); constructor; unfold desc in *; lia.
    + constructor.
      * constructor; assumption.
      * constructor. unfold desc. lia.
Qed.

Lemma sorted_desc_sorted (l : list (string * Z)) : Sorted desc (sorted_desc l).
Proof.
  induction l as [|x l IH]; simpl; [constructor|].
  apply insert_desc_sorted, IH.
Qed.

(** The sort is stable: it does not reorder entries of equal duration. *)
Lemma with_duration_insert_desc (v : Z) (x : string * Z) (l : list (string * Z)) :
  with_duration v (insert_desc x l) = with_duration v (x :: l).
Proof.
  unfold with_duration.
  induction l as [|y l IH]; simpl; [reflexivity|].
  destruct (Z.ltb_spec (snd x) (snd y)) as [Hlt|Hge]; [|reflexivity].
  simpl. rewrite IH. simpl.
  destruct (Z.eqb_spec (snd x) v), (Z.eqb_spec (snd y) v); try reflexivity.
  lia.
Qed.

Lemma with_duration_sorted_desc (v : Z) (l : list (string * Z)) :
  with_duration v (sorted_desc l) = with_duration v l.
Proof.
  induction l as [|x l IH]; simpl; [reflexivity|].
  rewrite with_duration_insert_desc. unfold with_duration in *. simpl.
  rewrite IH. reflexivity.
Qed.

(** ** Facts on the aggregator *)

Section Aggregator.

(** What one category of one event adds to the mapping. *)
Let add_contribution (d : dict) (p : string * Z) : dict :=
  update d (fst p) (get d (fst p) 0 + snd p).

(** The pairs of a category and a duration, in the order in which the
    aggregator meets them. *)
Let contributions (events : list NormalizedEvent) : list (string * Z) :=
  flat_map (fun e => map (fun c => (c, duration e)) (categories e)) events.

Let mem (k : string) (keys : list string) : bool := existsb (String.eqb k) keys.

Lemma add_event_contributions (d : dict) (e : NormalizedEvent) :
  add_event d e =
  fold_left add_contribution (map (fun c => (c, duration e)) (categories e)) d.
Proof.
  unfold add_event. generalize d. induction (categories e) as [|c l IH]; intro d0.
  - reflexivity.
  - simpl. apply IH.
Qed.

Lemma accumulate_contributions (events : list NormalizedEvent) (d : dict) :
  fold_left add_event events d = fold_left add_contribution (contributions events) d.
Proof.
  revert d. induction events as [|e events IH]; intro d; simpl.
  - reflexivity.
  - rewrite fold_left_app, <- add_event_contributions. apply IH.
Qed.

Lemma contributions_keys (events : list NormalizedEvent) :
  map fst (contributions events) = flat_map categories events.
Proof.
  induction events as [|e events IH]; simpl; [reflexivity|].
  rewrite map_app, IH, map_map. simpl. rewrite map_id. reflexivity.
Qed.

Lemma sum_values_contributions (ps : list (string * Z)) (d : dict) :
  sum_values (fold_left add_contribution ps d)
  = sum_values d + fold_right Z.add 0 (map snd ps).
Proof.
  revert d. induction ps as [|p ps IH]; intro d; simpl.
  - lia.
  - rewrite IH. unfold add_contribution. rewrite sum_values_update. lia.
Qed.

Lemma sum_contributions (events : list NormalizedEvent) :
  fold_right Z.add 0 (map snd (contributions events))
  = fold_right Z.add 0
      (map (fun e => duration e * Z.of_nat (List.length (categories e))) events).
Proof.
  induction events as [|e events IH]; simpl; [reflexivity|].
  rewrite map_app, fold_right_app, <- IH.
  generalize (fold_right Z.add 0 (map snd (contributions events))).
  induction (categories e) as [|c l IHl]; intro z.
  - simpl. lia.
  - cbn [map fold_right snd List.length]. rewrite IHl. lia.
Qed.

(** The report sums every duration once for each category of its event. *)
Lemma sum_values_aggregate (events : list NormalizedEvent) :
  sum_values (aggregate events)
  = fold_right Z.add 0
      (map (fun e => duration e * Z.of_nat (List.length (categories e))) events).
Proof.
  unfold aggregate, accumulate.
  rewrite sum_values_sorted_desc, accumulate_contributions,
    sum_values_contributions, sum_contributions.
  reflexivity.
Qed.

Lemma get_contributions (ps : list (string * Z)) (d : dict) (k : string) :
  get (fold_left add_contribution ps d) k 0
  = get d k 0
    + fold_right Z.add 0
        (map snd (filter (fun p => String.eqb (fst p) k) ps)).
Proof.
  revert d. induction ps as [|p ps IH]; intro d; simpl.
  - lia.
  - rewrite IH. unfold add_contribution. rewrite get_update.
    destruct (String.eqb_spec (fst p) k) as [->|]; simpl; lia.
Qed.

Lemma get_add_event (d : dict) (e : NormalizedEvent) (k : string) :
  get (add_event d e) k 0
  = get d k 0 + occurrences k (categories e) * duration e.
Proof.
  rewrite add_event_contributions, get_contributions. f_equal.
  unfold occurrences.
  induction (categories e) as [|c l IH]; simpl; [reflexivity|].
  destruct (String.eqb_spec c k) as [Heq|Hne]; destruct (string_dec c k);
    try congruence; cbn [map fold_right snd]; rewrite IH; lia.
Qed.

(** Keys: an update leaves them alone or appends the new one. *)
Lemma keys_update (d : dict) (k : string) (v : Z) :
  map fst (update d k v)
  = if mem k (map fst d) then map fst d else map fst d ++ [k].
Proof.
  induction d as [|[k0 v0] d IH]; simpl; [reflexivity|].
  rewrite (String.eqb_sym k k0).
  destruct (String.eqb k0 k); simpl; [reflexivity|].
  rewrite IH. unfold mem. destruct (existsb (String.eqb k) (map fst d)); reflexivity.
Qed.

Lemma filter_filter {A} (f g : A -> bool) (l : list A) :
  filter f (filter g l) = filter (fun x => g x && f x) l.
Proof.
  induction l as [|x l IH]; simpl; [reflexivity|].
  destruct (g x); simpl; [destruct (f x)|]; rewrite IH; reflexivity.
Qed.

Lemma mem_app (k : string) (a b : list string) :
  mem k (a ++ b) = mem k a || mem k b.
Proof. apply existsb_app. Qed.

Lemma keys_contributions (ps : list (string * Z)) (d : dict) :
  map fst (fold_left add_contribution ps d)
  = map fst d
    ++ filter (fun y => negb (mem y (map fst d))) (first_encounter (map fst ps)).
Proof.
  revert d. induction ps as [|[c v] ps IH]; intro d; simpl.
  - rewrite app_nil_r. reflexivity.
  - rewrite IH. unfold add_contribution. simpl. rewrite keys_update.
    rewrite filter_filter.
    destruct (mem c (map fst d)) eqn:Hc; simpl.
    + f_equal. apply filter_ext. intro y.
      destruct (String.eqb_spec y c) as [->|]; simpl; [rewrite Hc|]; reflexivity.
    + rewrite <- app_assoc. simpl. f_equal. f_equal. apply filter_ext. intro y.
      rewrite mem_app. simpl. rewrite orb_false_r, negb_orb. apply andb_comm.
Qed.

(** The mapping lists the categories in the order of first encounter. *)
Lemma keys_accumulate (events : list NormalizedEvent) :
  map fst (accumulate events) = first_encounter (flat_map categories events).
Proof.
  unfold accumulate.
  rewrite accumulate_contributions, keys_contributions, contributions_keys.
  simpl. induction (first_encounter _) as [|x l IH]; simpl; congruence.
Qed.

Lemma first_encounter_NoDup (l : list string) : NoDup (first_encounter l).
Proof.
  induction l as [|x l IH]; simpl; constructor.
  - rewrite filter_In. intros [_ H]. rewrite String.eqb_refl in H. discriminate.
  - apply NoDup_filter, IH.
Qed.

Lemma get_insert_desc (x : string * Z) (l : list (string * Z)) (k : string) (def : Z) :
  ~ In (fst x) (map fst l) ->
  get (insert_desc x l) k def = get (x :: l) k def.
Proof.
  induction l as [|[k0 v0] l IH]; simpl; intro Hn; [reflexivity|].
  destruct (snd x <? v0); [|reflexivity].
  destruct x as [kx vx]. simpl in *. rewrite IH by tauto. simpl.
  destruct (String.eqb_spec k0 k), (String.eqb_spec kx k); subst;
    try reflexivity.
  exfalso. apply Hn. left. reflexivity.
Qed.

(** With unique keys, sorting does not change what a key maps to. *)
Lemma get_sorted_desc (l : list (string * Z)) (k : string) (def : Z) :
  NoDup (map fst l) -> get (sorted_desc l) k def = get l k def.
Proof.
  induction l as [|[k0 v0] l IH]; simpl; intro Hnd; [reflexivity|].
  inversion Hnd as [|? ? Hn Hnd']; subst.
  rewrite get_insert_desc.
  - simpl. rewrite IH by assumption. reflexivity.
  - simpl. intro Hin. apply Hn.
    eapply Permutation_in; [|exact Hin].
    apply Permutation_map, sorted_desc_perm.
Qed.

Lemma get_aggregate (events : list NormalizedEvent) (k : string) :
  get (aggregate events) k 0 = get (accumulate events) k 0.
Proof.
  apply get_sorted_desc. rewrite keys_accumulate. apply first_encounter_NoDup.
Qed.

Lemma accumulate_snoc (events : list NormalizedEvent) (e : NormalizedEvent) :
  accumulate (events ++ [e]) = add_event (accumulate events) e.
Proof. unfold accumulate. rewrite fold_left_app. reflexivity. Qed.

End Aggregator.

(** ** The three [categorize_events] are the aggregator *)

Lemma fold_left_map {A B C} (f : A -> B -> A) (g : C -> B) (l : list C) (a : A) :
  fold_left f (map g l) a = fold_left (fun a x => f a (g x)) l a.
Proof.
  revert a. induction l as [|x l IH]; intro a; simpl; [reflexivity|apply IH].
Qed.

Lemma analyze_categorize_aggregate (events : list event) :
  Analyze.categorize_events events = aggregate (map Analyze.normalize events).
Proof.
  unfold Analyze.categorize_events, aggregate, accumulate.
  rewrite fold_left_map. reflexivity.
Qed.

Lemma analyzer_categorize_aggregate (self : GCalAnalyzer.self_t) (events : list event) :
  GCalAnalyzer.categorize_events self events
  = aggregate (map (GCalAnalyzer.normalize self) events).
Proof.
  unfold GCalAnalyzer.categorize_events, aggregate, accumulate.
  rewrite fold_left_map. reflexivity.
Qed.

Lemma auditor_categorize_aggregate (self : GCalAuditor.self_t) (events : list event) :
  GCalAuditor.categorize_events self events
  = aggregate (map (GCalAuditor.normalize self) events).
Proof.
  unfold GCalAuditor.categorize_events, aggregate, accumulate.
  rewrite fold_left_map. reflexivity.
Qed.

(** ** Category extraction *)

Lemma map_strip_split_not_nil (m : string) : map strip (split "," m) <> [].
Proof.
  intro H. apply map_eq_nil in H. exact (split_not_nil _ _ H).
Qed.

Lemma analyze_extract_not_nil (e : event) : Analyze.extract_event_types e <> [].
Proof.
  unfold Analyze.extract_event_types.
  destruct (description e) as [d|]; [|discriminate].
  destruct (findall_tags d); [discriminate|apply map_strip_split_not_nil].
Qed.

Lemma analyzer_extract_not_nil (self : GCalAnalyzer.self_t) (e : event) :
  GCalAnalyzer.extract_event_categories self e <> [].
Proof.
  unfold GCalAnalyzer.extract_event_categories.
  destruct (description e) as [d|]; [|discriminate].
  destruct (findall_tags d); [discriminate|].
  destruct (GCalAnalyzer._analyze_first_tag_only self);
    [discriminate|apply map_strip_split_not_nil].
Qed.

Lemma auditor_extract_not_nil (self : GCalAuditor.self_t) (e : event) :
  GCalAuditor.extract_event_categories self e <> [].
Proof.
  unfold GCalAuditor.extract_event_categories.
  destruct (description e) as [d|]; [|discriminate].
  destruct (findall_tags d); [discriminate|].
  destruct (GCalAuditor.first_tag_only self);
    [discriminate|apply map_strip_split_not_nil].
Qed.

(** ** Sum of the report against the sum of the durations *)

Lemma aggregate_sum_bound (events : list NormalizedEvent) :
  Forall (fun e => 0 <= duration e /\ categories e <> []) events ->
  sum_durations events <= sum_values (aggregate events)
  /\ (sum_values (aggregate events) = sum_durations events
      <-> Forall (fun e => 0 < duration e -> single_category e) events).
Proof.
  rewrite sum_values_aggregate. unfold sum_durations, single_category.
  induction 1 as [|e events [Hd Hc] _ [IHle IHeq]]; simpl.
  - split; [lia|]. split; constructor.
  - assert (Hn : (1 <= List.length (categories e))%nat)
      by (destruct (categories e); [congruence|simpl; lia]).
    set (n := List.length (categories e)) in *.
    assert (Hge : duration e <= duration e * Z.of_nat n) by nia.
    split; [lia|]. split.
    + intro Heq. constructor.
      * intro Hpos. nia.
      * apply IHeq. lia.
    + intro HF. inversion HF as [|? ? Hone HF']; subst.
      apply IHeq in HF'.
      destruct (Z.eq_dec (duration e) 0) as [Hz|Hnz].
      * rewrite Hz. lia.
      * assert (Hn1 : n = 1%nat) by (apply Hone; lia). rewrite Hn1. lia.
Qed.

Lemma with_duration_keys (d : dict) (v : Z) :
  NoDup (map fst d) ->
  map fst (with_duration v d) = filter (fun k => get d k 0 =? v) (map fst d).
Proof.
  unfold with_duration.
  induction d as [|[k0 v0] d IH]; simpl; intro Hnd; [reflexivity|].
  inversion Hnd as [|? ? Hn Hnd']; subst.
  rewrite String.eqb_refl.
  rewrite (filter_ext_in (fun k => (if String.eqb k0 k then v0 else get d k 0) =? v)
                         (fun k => get d k 0 =? v)).
  - destruct (v0 =? v); simpl; rewrite IH by assumption; reflexivity.
  - intros k Hk. destruct (String.eqb_spec k0 k); [subst; contradiction|reflexivity].
Qed.

Lemma aggregate_ranked (events : list NormalizedEvent) :
  ranked (flat_map categories events) (aggregate events).
Proof.
  assert (Hnd : NoDup (map fst (accumulate events)))
    by (rewrite keys_accumulate; apply first_encounter_NoDup).
  unfold ranked, aggregate. split; [apply sorted_desc_sorted|]. split.
  - eapply Permutation_NoDup; [|exact Hnd].
    apply Permutation_map, Permutation_sym, sorted_desc_perm.
  - intro v. rewrite with_duration_sorted_desc, with_duration_keys by assumption.
    rewrite keys_accumulate. apply filter_ext. intro k.
    rewrite get_sorted_desc by assumption. reflexivity.
Qed.

(** ** The sort of the report is the stable sort *)

Lemma sorted_desc_head_max (x : string * Z) (l : list (string * Z)) :
  Sorted desc (x :: l) -> Forall (fun y => snd y <= snd x) l.
Proof.
  intro Hs. apply Sorted_StronglySorted in Hs.
  - inversion Hs. assumption.
  - intros a b c Hab Hbc. unfold desc in *. lia.
Qed.

Lemma with_duration_above (v : Z) (l : list (string * Z)) :
  Forall (fun y => snd y < v) l -> with_duration v l = [].
Proof.
  unfold with_duration. induction 1 as [|y l Hy _ IH]; simpl; [reflexivity|].
  destruct (Z.eqb_spec (snd y) v); [lia|exact IH].
Qed.

(** Two reports in descending order that list the entries of every duration
    in the same order are the same report. *)
Lemma ranked_unique (l1 : list (string * Z)) :
  forall l2,
    Sorted desc l1 -> Sorted desc l2 ->
    (forall v, with_duration v l1 = with_duration v l2) ->
    l1 = l2.
Proof.
  induction l1 as [|x r1 IH]; intros l2 Hs1 Hs2 Heq.
  - destruct l2 as [|y r2]; [reflexivity|].
    specialize (Heq (snd y)). unfold with_duration in Heq. simpl in Heq.
    rewrite Z.eqb_refl in Heq. discriminate.
  - destruct l2 as [|y r2].
    + specialize (Heq (snd x)). unfold with_duration in Heq. simpl in Heq.
      rewrite Z.eqb_refl in Heq. discriminate.
    + pose proof (sorted_desc_head_max _ _ Hs1) as Hm1.
      pose proof (sorted_desc_head_max _ _ Hs2) as Hm2.
      assert (Hxy : x = y).
      { destruct (Z.lt_trichotomy (snd x) (snd y)) as [Hlt|[He|Hgt]].
        - specialize (Heq (snd y)).
          rewrite (with_duration_above (snd y) (x :: r1)) in Heq.
          + unfold with_duration in Heq. simpl in Heq.
            rewrite Z.eqb_refl in Heq. discriminate.
          + constructor; [exact Hlt|].
            eapply Forall_impl; [|exact Hm1]. simpl. intros; lia.
        - specialize (Heq (snd x)). unfold with_duration in Heq. simpl in Heq.
          rewrite Z.eqb_refl in Heq. rewrite <- He, Z.eqb_refl in Heq.
          congruence.
        - specialize (Heq (snd x)).
          rewrite (with_duration_above (snd x) (y :: r2)) in Heq.
          + unfold with_duration in Heq. simpl in Heq.
            rewrite Z.eqb_refl in Heq. discriminate.
          + constructor; [lia|].
            eapply Forall_impl; [|exact Hm2]. simpl. intros; lia. }
      subst y. f_equal. apply IH.
      * inversion Hs1; assumption.
      * inversion Hs2; assumption.
      * intro v. specialize (Heq v). unfold with_duration in *. simpl in Heq.
        destruct (snd x =? v); congruence.
Qed.

(** Whatever sorts the items in descending order and keeps the items of
    equal duration in their order returns what [sorted_desc] returns. *)
Lemma stable_sort_unique (l l' : list (string * Z)) :
  Sorted desc l' ->
  (forall v, with_duration v l' = with_duration v l) ->
  l' = sorted_desc l.
Proof.
  intros Hs Hst. apply ranked_unique.
  - exact Hs.
  - apply sorted_desc_sorted.
  - intro v. rewrite with_duration_sorted_desc. apply Hst.
Qed.

(** ** Claims on the extraction and the aggregation *)

(** C1, as the code has it.  For every non-empty sequence of events of
    non-negative duration, the sum of the values of the report of
    [categorize_events] is at least the sum of the durations of the events,
    and the two are equal if and only if every event of positive duration
    has exactly one category (src/analyze.py and src/gcal/audit.py). *)
Theorem report_sum_bounds_durations (events : list event) :
  events <> [] ->
  Forall (fun e => 0 <= Datetime.sub (end_dateTime e) (start_dateTime e)) events ->
  sum_bound_with_equality (fun e => 0 < duration e -> single_category e)
    (map Analyze.normalize events) (Analyze.categorize_events events)
  /\ forall self : GCalAuditor.self_t,
      sum_bound_with_equality (fun e => 0 < duration e -> single_category e)
        (map (GCalAuditor.normalize self) events)
        (GCalAuditor.categorize_events self events).
Proof.
  intros _ Hpos. split; [|intro self].
  - rewrite analyze_categorize_aggregate. apply aggregate_sum_bound.
    apply Forall_map. eapply Forall_impl; [|exact Hpos].
    intros e He. split; [exact He|apply analyze_extract_not_nil].
  - rewrite auditor_categorize_aggregate. apply aggregate_sum_bound.
    apply Forall_map. eapply Forall_impl; [|exact Hpos].
    intros e He. split; [exact He|apply auditor_extract_not_nil].
Qed.

Lemma report_sum_bounds_durations_witness :
  [standup; coding] <> []
  /\ Forall (fun e => 0 <= Datetime.sub (end_dateTime e) (start_dateTime e))
            [standup; coding]
  /\ sum_bound_with_equality (fun e => 0 < duration e -> single_category e)
       (map Analyze.normalize [standup; coding])
       (Analyze.categorize_events [standup; coding])
  /\ forall self : GCalAuditor.self_t,
      sum_bound_with_equality (fun e => 0 < duration e -> single_category e)
        (map (GCalAuditor.normalize self) [standup; coding])
        (GCalAuditor.categorize_events self [standup; coding]).
Proof.
  assert (Hne : [standup; coding] <> []) by discriminate.
  assert (Hpos : Forall (fun e => 0 <= Datetime.sub (end_dateTime e) (start_dateTime e))
                        [standup; coding])
    by (repeat constructor; vm_compute; discriminate).
  split; [exact Hne|]. split; [exact Hpos|].
  exact (report_sum_bounds_durations [standup; coding] Hne Hpos).
Defined.

(** C1, as stated, fails: an event of duration zero with two categories
    leaves the two sums equal. *)
Lemma zero_length_event_keeps_sums_equal :
  [instant_two_tags] <> []
  /\ Forall (fun e => 0 <= Datetime.sub (end_dateTime e) (start_dateTime e))
            [instant_two_tags]
  /\ ~ sum_bound_with_equality single_category
        (map Analyze.normalize [instant_two_tags])
        (Analyze.categorize_events [instant_two_tags]).
Proof.
  split; [discriminate|]. split.
  - repeat constructor. vm_compute. discriminate.
  - intros [_ [H _]]. specialize (H eq_refl).
    inversion H as [|? ? Hone _]. vm_compute in Hone. discriminate.
Qed.

(** C2, as the code has it.  When the description is absent or holds no
    [[Tags: ...]] block, category extraction returns the one-element list
    of the summary; when it holds a block, the pieces of the first block
    between commas, trimmed, are returned as they are.  The categories are
    always a non-empty sequence of strings (src/analyze.py and
    src/gcal/audit.py). *)
Theorem extraction_falls_back_to_summary (e : event) :
  (description e = None \/ no_tag_block e ->
   Analyze.extract_event_types e = [summary e]
   /\ forall self, GCalAuditor.extract_event_categories self e = [summary e])
  /\ (forall d m rest,
        description e = Some d -> findall_tags d = m :: rest ->
        Analyze.extract_event_types e = map strip (split "," m)
        /\ forall self,
            GCalAuditor.extract_event_categories self e
            = if GCalAuditor.first_tag_only self
              then [strip (hd "" (split "," m))]
              else map strip (split "," m))
  /\ Analyze.extract_event_types e <> []
  /\ forall self, GCalAuditor.extract_event_categories self e <> [].
Proof.
  split; [|split; [|split]].
  - unfold no_tag_block, Analyze.extract_event_types,
      GCalAuditor.extract_event_categories.
    intros [Hnone|[d [Hd Hm]]].
    + rewrite Hnone. split; reflexivity.
    + rewrite Hd, Hm. split; reflexivity.
  - unfold Analyze.extract_event_types, GCalAuditor.extract_event_categories.
    intros d m rest Hd Hm. rewrite Hd, Hm. split; reflexivity.
  - apply analyze_extract_not_nil.
  - intro self. apply auditor_extract_not_nil.
Qed.

Lemma extraction_falls_back_to_summary_witness :
  (description standup = None \/ no_tag_block standup)
  /\ Analyze.extract_event_types standup = ["Standup"]
  /\ Analyze.extract_event_types coding = ["Work"].
Proof.
  split; [left; reflexivity|]. split.
  - apply (proj1 (extraction_falls_back_to_summary standup)). left. reflexivity.
  - apply (proj1 (proj2 (extraction_falls_back_to_summary coding))
             "[Tags: Work]" " Work" []); reflexivity.
Defined.

(** C2, as stated, fails: an empty tag block does not fall back to the
    summary; the one category is the empty string. *)
Lemma empty_tag_block_gives_empty_label :
  tag_block_empty lunch_empty_tags
  /\ Analyze.extract_event_types lunch_empty_tags = [""]
  /\ GCalAuditor.extract_event_categories GCalAuditor.init lunch_empty_tags = [""]
  /\ Analyze.extract_event_types lunch_empty_tags <> [summary lunch_empty_tags]
  /\ ~ Forall (fun c => c <> "") (Analyze.extract_event_types lunch_empty_tags).
Proof.
  split; [|split; [|split; [|split]]].
  - exists "[Tags:]", "", []. repeat split. repeat constructor.
  - reflexivity.
  - reflexivity.
  - vm_compute. discriminate.
  - intro H. inversion H as [|? ? Hc _]. apply Hc. reflexivity.
Qed.

(** C3.  For every sequence of events the report of [categorize_events] is
    in descending order of accumulated duration (every entry has at least
    the duration of the next), and the categories of equal accumulated
    duration stay in the order in which the sequence lists them first
    (src/analyze.py and src/gcal/analyze.py). *)
Theorem report_ranked_stable (events : list event) :
  ranked (flat_map Analyze.extract_event_types events)
         (Analyze.categorize_events events)
  /\ forall self : GCalAnalyzer.self_t,
      ranked (flat_map (GCalAnalyzer.extract_event_categories self) events)
             (GCalAnalyzer.categorize_events self events).
Proof.
  split; [|intro self].
  - rewrite analyze_categorize_aggregate.
    replace (flat_map Analyze.extract_event_types events)
      with (flat_map categories (map Analyze.normalize events)).
    + apply aggregate_ranked.
    + rewrite flat_map_concat_map, map_map, <- flat_map_concat_map. reflexivity.
  - rewrite analyzer_categorize_aggregate.
    replace (flat_map (GCalAnalyzer.extract_event_categories self) events)
      with (flat_map categories (map (GCalAnalyzer.normalize self) events)).
    + apply aggregate_ranked.
    + rewrite flat_map_concat_map, map_map, <- flat_map_concat_map. reflexivity.
Qed.

(** C9.  An event adds its whole duration to the total of a label once for
    each time its category list holds the label; a tag block that lists a
    label twice, as in [[Tags: Work, Work]], gives the label twice, so the
    event counts double (src/analyze.py and src/gcal/audit.py). *)
Theorem duplicate_label_counts_each_time (events : list event) (e : event) (k : string) :
  get (Analyze.categorize_events (events ++ [e])) k 0
  = get (Analyze.categorize_events events) k 0
    + occurrences k (Analyze.extract_event_types e) * Analyze.extract_duration e
  /\ (forall self : GCalAuditor.self_t,
        get (GCalAuditor.categorize_events self (events ++ [e])) k 0
        = get (GCalAuditor.categorize_events self events) k 0
          + occurrences k (GCalAuditor.extract_event_categories self e)
            * GCalAuditor.event_duration e)
  /\ Analyze.extract_event_types work_twice = ["Work"; "Work"]
  /\ Analyze.categorize_events [work_twice] = [("Work", 2 * 3600)].
Proof.
  split; [|split; [intro self|split; reflexivity]].
  - rewrite !analyze_categorize_aggregate, map_app, !get_aggregate.
    simpl. rewrite accumulate_snoc, get_add_event. reflexivity.
  - rewrite !auditor_categorize_aggregate, map_app, !get_aggregate.
    simpl. rewrite accumulate_snoc, get_add_event. reflexivity.
Qed.

(** ** Running the formatter *)

Lemma emit_emit {Self} (w : world Self) (a b : list out_item) :
  emit (emit w a) b = emit w (a ++ b).
Proof. unfold emit. simpl. rewrite app_assoc. reflexivity. Qed.

Lemma emit_nil {Self} (w : world Self) : emit w [] = w.
Proof. destruct w. unfold emit. simpl. rewrite app_nil_r. reflexivity. Qed.

Lemma print_emit {Self} (o : out_item) (w : world Self) :
  print o w = (Ok tt, emit w [o]).
Proof. reflexivity. Qed.

Lemma max_label_width (categories : dict) :
  categories <> [] ->
  max (map (fun item => String.length (fst item)) categories)
  = Ok (label_width categories).
Proof.
  unfold label_width. destruct categories; [congruence|reflexivity].
Qed.

Lemma percent_ok (seconds total : Z) :
  total <> 0 -> percent seconds total = Ok (percent_value seconds total).
Proof.
  intro H. unfold percent, truediv.
  destruct (Z.eqb_spec total 0); [contradiction|reflexivity].
Qed.

Lemma percent_zero_window (seconds : Z) : percent seconds 0 = Raise ZeroDivisionError.
Proof. reflexivity. Qed.

Lemma analyze_row_ok (width : nat) (event_type : string) (seconds : Z) :
  Analyze.row width event_type seconds = Ok (analyze_row width event_type seconds).
Proof.
  unfold Analyze.row. rewrite percent_ok by (unfold SECS_IN_DAY; lia). reflexivity.
Qed.

Lemma auditor_row_ok (self : GCalAuditor.self_t) (total : Z) (width : nat)
      (event_type : string) (seconds : Z) :
  GCalAuditor._total_duration self = Some total -> total <> 0 ->
  GCalAuditor.row self width event_type seconds
  = Ok (auditor_row total width event_type seconds).
Proof.
  intros Ht Hnz. unfold GCalAuditor.row, GCalAuditor.percent_of_total.
  rewrite Ht, percent_ok by assumption. reflexivity.
Qed.

Lemma analyze_rows_run (width : nat) (categories : dict) (w : world unit) :
  for_each categories tt
    (fun _ item =>
       line <- lift (Analyze.row width (fst item) (snd item)) ;;
       print (Line line)) w
  = (Ok tt,
     emit w (map (fun item => Line (analyze_row width (fst item) (snd item)))
                 categories)).
Proof.
  revert w. induction categories as [|item l IH]; intro w; simpl.
  - rewrite emit_nil. reflexivity.
  - unfold bind at 1. unfold bind at 1. unfold lift.
    rewrite analyze_row_ok, print_emit, IH, emit_emit. reflexivity.
Qed.

Lemma auditor_rows_run (self : GCalAuditor.self_t) (total : Z) (width : nat)
      (categories : dict) (acc : Z) (w : world GCalAuditor.self_t) :
  GCalAuditor._total_duration self = Some total -> total <> 0 ->
  for_each categories acc
    (fun tracked_duration item =>
       line <- lift (GCalAuditor.row self width (fst item) (snd item)) ;;
       print (Line line) ;;;
       ret (tracked_duration + snd item)) w
  = (Ok (acc + sum_values categories),
     emit w (map (fun item => Line (auditor_row total width (fst item) (snd item)))
                 categories)).
Proof.
  intros Ht Hnz. revert acc w.
  induction categories as [|item l IH]; intros acc w; simpl.
  - rewrite emit_nil. unfold sum_values. simpl. rewrite Z.add_0_r. reflexivity.
  - unfold bind at 1. unfold bind at 1. unfold lift.
    rewrite (auditor_row_ok self total) by assumption.
    unfold bind at 1. rewrite print_emit. unfold ret at 1.
    rewrite IH, emit_emit. unfold sum_values. simpl. f_equal. f_equal. lia.
Qed.

Lemma analyze_print_analysis_run (categories : dict) (w : world unit) :
  categories <> [] ->
  Analyze.print_analysis categories w
  = (Ok tt, emit w (map Line (analyze_table categories))).
Proof.
  intro Hne. unfold Analyze.print_analysis, analyze_table.
  unfold bind at 1. unfold lift at 1. rewrite max_label_width by assumption.
  repeat (unfold bind at 1; rewrite print_emit).
  unfold bind at 1. rewrite analyze_rows_run. rewrite print_emit.
  rewrite !emit_emit. rewrite !map_app, map_map. reflexivity.
Qed.

Lemma auditor_print_analysis_run (categories : dict) (total : Z)
      (w : world GCalAuditor.self_t) :
  categories <> [] ->
  GCalAuditor._total_duration (self w) = Some total -> total <> 0 ->
  GCalAuditor.print_analysis categories w
  = (Ok tt,
     emit w (map Line (auditor_table (GCalAuditor.first_tag_only (self w))
                                     total categories))).
Proof.
  intros Hne Ht Hnz. unfold GCalAuditor.print_analysis, auditor_table.
  unfold bind at 1. unfold get_self at 1.
  unfold bind at 1. unfold lift at 1. rewrite max_label_width by assumption.
  repeat (unfold bind at 1; rewrite print_emit).
  unfold bind at 1. rewrite (auditor_rows_run (self w) total) by assumption.
  unfold bind at 1. rewrite print_emit.
  rewrite !map_app, map_map.
  destruct (GCalAuditor.first_tag_only (self w)).
  - unfold bind at 1. unfold lift at 1.
    rewrite (auditor_row_ok (self w) total) by assumption.
    unfold bind at 1. rewrite !print_emit, !emit_emit. simpl.
    rewrite <- ?app_assoc. reflexivity.
  - unfold ret. rewrite !emit_emit. simpl. rewrite <- ?app_assoc, ?app_nil_r.
    reflexivity.
Qed.

Lemma auditor_print_analysis_not_value_error (categories : dict)
      (w : world GCalAuditor.self_t) :
  categories <> [] ->
  fst (GCalAuditor.print_analysis categories w) <> Raise ValueError.
Proof.
  intro Hne.
  destruct (GCalAuditor._total_duration (self w)) as [total|] eqn:Ht.
  - destruct (Z.eq_dec total 0) as [->|Hnz].
    + destruct categories as [|item l]; [congruence|].
      unfold GCalAuditor.print_analysis, bind, get_self, lift, print.
      cbn -[GCalAuditor.title border]. 
      unfold GCalAuditor.row, GCalAuditor.percent_of_total. cbn [self].
      rewrite Ht, percent_zero_window. cbn. discriminate.
    + rewrite (auditor_print_analysis_run categories total) by assumption.
      discriminate.
  - destruct categories as [|item l]; [congruence|].
    unfold GCalAuditor.print_analysis, bind, get_self, lift, print.
    cbn -[GCalAuditor.title border].
    unfold GCalAuditor.row, GCalAuditor.percent_of_total. cbn [self].
    rewrite Ht. cbn. discriminate.
Qed.

(** ** Two digits after the point *)

Lemma after_point_app (a b : string) :
  after_point a = None -> after_point (a +++ b) = after_point b.
Proof.
  induction a as [|c a IH]; simpl; [reflexivity|].
  destruct (Ascii.eqb c "."); [discriminate|exact IH].
Qed.

Lemma after_point_uint (u : Decimal.uint) :
  after_point (NilEmpty.string_of_uint u) = None.
Proof. induction u; simpl; assumption || reflexivity. Qed.

Lemma after_point_str_int (n : Z) : after_point (str_int n) = None.
Proof.
  unfold str_int, NilZero.string_of_int, NilZero.string_of_uint.
  destruct (Z.to_int n) as [u|u]; destruct u; simpl;
    try reflexivity; apply after_point_uint.
Qed.

Lemma is_digit_digit (n : Z) : 0 <= n < 10 -> is_digit (digit n) = true.
Proof.
  intro H. unfold digit.
  assert (Hm : (Z.to_nat n < 10)%nat) by lia.
  revert Hm. generalize (Z.to_nat n). intros m Hm.
  do 10 (destruct m as [|m]; [reflexivity|]). lia.
Qed.

(** What [.2f] renders of a finite percentage has exactly two digits after
    the point: the percentage column of src/gcal/audit.py. *)
Lemma auditor_share_two_decimals (negative : bool) (h : Z) :
  two_decimals (fmt_2f (Hundredths negative h)) = true.
Proof.
  unfold two_decimals, fmt_2f.
  rewrite after_point_app by (destruct negative; reflexivity).
  rewrite after_point_app by apply after_point_str_int.
  cbn [after_point String.append].
  change (Ascii.eqb "." ".") with true. cbv iota.
  rewrite !is_digit_digit; [reflexivity| |];
    apply Z.mod_pos_bound; lia.
Qed.

(** ** Claims on the formatter *)

(** C4, as the code has it.  For the two events 09:00 to 10:00 "Standup"
    without tags and 10:00 to 12:00 "Coding" with the tag "Work", the
    report is Work 7200, Standup 3600, and the formatter of
    src/analyze.py renders their shares of the 86400 second day as 8.33
    and 4.17. *)
Theorem workday_scenario :
  Analyze.categorize_events [standup; coding] = [("Work", 7200); ("Standup", 3600)]
  /\ Analyze.print_analysis (Analyze.categorize_events [standup; coding]) (fresh tt)
     = (Ok tt,
        {| self := tt;
           stdout :=
             [Line "+----------------------------------+";
              Line "| Event Type | Duration | % of Day |";
              Line "+----------------------------------+";
              Line "| Work    |   2:00   |   8.33   |";
              Line "| Standup |   1:00   |   4.17   |";
              Line "+----------------------------------+"];
           log := [] |}).
Proof. split; vm_compute; reflexivity. Qed.

(** C4, as stated, fails: the shares of 7200 and 3600 seconds in a day of
    86400 seconds are not rendered as 16.67 and 8.33. *)
Lemma workday_scenario_shares :
  SECS_IN_DAY = 86400
  /\ (forall p, percent 7200 SECS_IN_DAY = Ok p -> str_float p <> "16.67")
  /\ (forall p, percent 3600 SECS_IN_DAY = Ok p -> str_float p <> "8.33")
  /\ Analyze.row 7 "Work" 7200 <> Ok "| Work    |   2:00   |  16.67   |"
  /\ Analyze.row 7 "Standup" 3600 <> Ok "| Standup |   1:00   |   8.33   |".
Proof.
  split; [reflexivity|]. split; [|split; [|split]].
  - intros p Hp. vm_compute in Hp. injection Hp as <-. vm_compute. discriminate.
  - intros p Hp. vm_compute in Hp. injection Hp as <-. vm_compute. discriminate.
  - vm_compute. discriminate.
  - vm_compute. discriminate.
Qed.

(** C5 at a report of half a day.  The percentage 50.0 is rendered with
    one digit after the point by src/analyze.py and src/gcal/analyze.py,
    which print [round(..., 2)] as it is; src/gcal/audit.py formats it
    with [.2f] and renders two. *)
Theorem half_day_share_rendering :
  Analyze.row 4 "Work" 43200 = Ok "| Work |  12:00   |   50.0   |"
  /\ GCalAnalyzer.row {| GCalAnalyzer._analyze_first_tag_only := false;
                         GCalAnalyzer._total_duration := Some 86400 |}
                      4 "Work" 43200
     = Ok "| Work |  12:00   |    50.0    |"
  /\ GCalAuditor.row {| GCalAuditor._audit_first_tag_only := Some false;
                        GCalAuditor._total_duration := Some 86400 |}
                     4 "Work" 43200
     = Ok "| Work |  12:00   |   50.00    |"
  /\ two_decimals (str_float (percent_value 43200 86400)) = false
  /\ two_decimals (fmt_2f (percent_value 43200 86400)) = true.
Proof. repeat split; vm_compute; reflexivity. Qed.

(** C6, as the code has it.  On an empty mapping the formatter raises the
    error of [max] on an empty sequence, before it prints anything.  On a
    mapping that is not empty it never raises that error; the formatter of
    src/analyze.py then raises nothing, and the one of src/gcal/audit.py
    raises nothing when the window duration is set and not zero. *)
Theorem formatter_raises_on_empty_only :
  (forall w, Analyze.print_analysis [] w = (Raise ValueError, w))
  /\ (forall w, GCalAuditor.print_analysis [] w = (Raise ValueError, w))
  /\ (forall categories w,
        categories <> [] -> fst (Analyze.print_analysis categories w) = Ok tt)
  /\ (forall categories total w,
        categories <> [] ->
        GCalAuditor._total_duration (self w) = Some total -> total <> 0 ->
        fst (GCalAuditor.print_analysis categories w) = Ok tt)
  /\ (forall categories w,
        categories <> [] ->
        fst (GCalAuditor.print_analysis categories w) <> Raise ValueError).
Proof.
  split; [|split; [|split; [|split]]].
  - reflexivity.
  - reflexivity.
  - intros categories w Hne. rewrite analyze_print_analysis_run by assumption.
    reflexivity.
  - intros categories total w Hne Ht Hnz.
    rewrite (auditor_print_analysis_run categories total) by assumption.
    reflexivity.
  - apply auditor_print_analysis_not_value_error.
Qed.

Lemma formatter_raises_on_empty_only_witness :
  [("Work", 7200); ("Standup", 3600)] <> []
  /\ fst (Analyze.print_analysis [("Work", 7200); ("Standup", 3600)] (fresh tt)) = Ok tt
  /\ fst (GCalAuditor.print_analysis [("Work", 7200); ("Standup", 3600)]
            (fresh {| GCalAuditor._audit_first_tag_only := Some false;
                      GCalAuditor._total_duration := Some 86399 |})) = Ok tt.
Proof.
  split; [discriminate|]. split.
  - apply (proj1 (proj2 (proj2 formatter_raises_on_empty_only))). discriminate.
  - apply (proj1 (proj2 (proj2 (proj2 formatter_raises_on_empty_only)))
             [("Work", 7200); ("Standup", 3600)] 86399).
    + discriminate.
    + reflexivity.
    + lia.
Defined.

(** C6, as stated, fails: with a window of no length the formatter of
    src/gcal/audit.py raises on a mapping that is not empty, after it has
    printed the title. *)
Lemma formatter_raises_on_zero_window :
  [("A", 3600)] <> []
  /\ GCalAuditor.print_analysis [("A", 3600)]
       (fresh {| GCalAuditor._audit_first_tag_only := Some false;
                 GCalAuditor._total_duration := Some 0 |})
     = (Raise ZeroDivisionError,
        {| self := {| GCalAuditor._audit_first_tag_only := Some false;
                      GCalAuditor._total_duration := Some 0 |};
           stdout :=
             [Line "+------------------------------------+";
              Line "| Event Type | Duration | % of Total |";
              Line "+------------------------------------+"];
           log := [] |}).
Proof. split; [discriminate|vm_compute; reflexivity]. Qed.

(** ** Claims on the fetch and on the empty sequence *)

(** C8.  When the calendar service answers with an HTTP error,
    [query_events] returns nothing and [_audit] does what it does for an
    empty list of events: it prints that no events were found and returns
    without raising.  Its result, its output and the state of the auditor
    are the same in the two cases; only the log keeps the error
    (src/gcal/audit.py). *)
Theorem fetch_failure_is_no_events
        (error : string) (start_datetime end_datetime : datetime)
        (w : world GCalAuditor.self_t) :
  let failed := GCalAuditor._audit (HttpError error) start_datetime end_datetime w in
  let empty := GCalAuditor._audit (Items []) start_datetime end_datetime w in
  fst (GCalAuditor.query_events (HttpError error) start_datetime end_datetime w) = Ok None
  /\ fst failed = Ok tt
  /\ fst empty = Ok tt
  /\ stdout (snd failed) = stdout w ++ [NoEventsFound start_datetime (Some end_datetime)]
  /\ stdout (snd failed) = stdout (snd empty)
  /\ self (snd failed) = self (snd empty)
  /\ log (snd failed) = log (snd empty) ++ [LogError ("An error occurred: " +++ error)].
Proof. destruct w. repeat split. Qed.

(** C10.  Aggregating no events gives the empty mapping; [categorize_events]
    raises nothing, and it is the formatter that fails on the empty mapping
    (src/analyze.py and src/gcal/audit.py). *)
Theorem no_events_empty_report :
  Analyze.categorize_events [] = []
  /\ (forall self, GCalAuditor.categorize_events self [] = [])
  /\ (forall w, fst (Analyze.print_analysis (Analyze.categorize_events []) w)
                = Raise ValueError)
  /\ (forall self w,
        fst (GCalAuditor.print_analysis (GCalAuditor.categorize_events self []) w)
        = Raise ValueError).
Proof. repeat split. Qed.

(** ** The loop over the days of a week *)

Lemma aggregate_not_nil (e : NormalizedEvent) (events : list NormalizedEvent) :
  categories e <> [] -> aggregate (e :: events) <> [].
Proof.
  intros Hc Hnil.
  assert (Hacc : accumulate (e :: events) = []).
  { apply Permutation_nil. rewrite <- Hnil. apply sorted_desc_perm. }
  apply (f_equal (map fst)) in Hacc. rewrite keys_accumulate in Hacc.
  simpl in Hacc. destruct (categories e); [congruence|discriminate].
Qed.

Lemma auditor_categorize_not_nil (self : GCalAuditor.self_t) (events : list event) :
  events <> [] -> GCalAuditor.categorize_events self events <> [].
Proof.
  destruct events as [|e events]; [congruence|]. intros _.
  rewrite auditor_categorize_aggregate. simpl.
  apply aggregate_not_nil. apply auditor_extract_not_nil.
Qed.

Lemma audit_week_loop_step (events : list event) (end_datetime cur_datetime : datetime) :
  Datetime.leb cur_datetime end_datetime = true ->
  GCalAuditor.audit_week_loop events end_datetime cur_datetime
  = (GCalAuditor.audit_week_day events cur_datetime ;;;
     GCalAuditor.audit_week_loop events end_datetime
       (Datetime.add_days cur_datetime 1)).
Proof.
  intro Hle. funelim (GCalAuditor.audit_week_loop events end_datetime cur_datetime).
  - reflexivity.
  - congruence.
Qed.

Lemma audit_week_loop_stop (events : list event) (end_datetime cur_datetime : datetime) :
  Datetime.leb cur_datetime end_datetime = false ->
  GCalAuditor.audit_week_loop events end_datetime cur_datetime = ret tt.
Proof.
  intro Hgt. funelim (GCalAuditor.audit_week_loop events end_datetime cur_datetime).
  - congruence.
  - reflexivity.
Qed.

Lemma audit_week_day_run (events : list event) (cur_datetime : datetime)
      (w : world GCalAuditor.self_t) :
  GCalAuditor.audit_week_day events cur_datetime w
  = (Ok tt,
     emit (day_world w)
          (day_section (self (day_world w)) SECS_IN_DAY events cur_datetime)).
Proof.
  unfold GCalAuditor.audit_week_day, day_section.
  fold (events_on_day events cur_datetime).
  unfold bind at 1. unfold get_self at 1.
  unfold bind at 1. unfold set_self at 1.
  unfold bind at 1. rewrite print_emit.
  fold (day_heading cur_datetime).
  destruct (events_on_day events cur_datetime) as [|e l] eqn:Hday.
  - rewrite print_emit, emit_emit. reflexivity.
  - unfold bind at 1. unfold get_self at 1. cbn [self emit].
    rewrite (auditor_print_analysis_run _ SECS_IN_DAY).
    + rewrite emit_emit. reflexivity.
    + apply auditor_categorize_not_nil. discriminate.
    + reflexivity.
    + unfold SECS_IN_DAY. lia.
Qed.

Lemma day_world_emit (w : world GCalAuditor.self_t) (items : list out_item) :
  day_world (emit (day_world w) items) = emit (day_world w) items.
Proof. reflexivity. Qed.

Lemma audit_week_loop_run (events : list event) (end_datetime : datetime) (n : nat) :
  forall (cur_datetime : datetime) (w : world GCalAuditor.self_t),
    Datetime.timestamp end_datetime
    < Datetime.timestamp cur_datetime + 86400 * Z.of_nat n ->
    (n <> O ->
     Datetime.timestamp cur_datetime + 86400 * (Z.of_nat n - 1)
     <= Datetime.timestamp end_datetime) ->
    GCalAuditor.audit_week_loop events end_datetime cur_datetime w
    = (Ok tt,
       emit (match n with O => w | S _ => day_world w end)
            (flat_map (day_section (self (day_world w)) SECS_IN_DAY events)
                      (days_from cur_datetime n))).
Proof.
  induction n as [|n IH]; intros cur_datetime w Hlt Hle.
  - rewrite audit_week_loop_stop.
    + simpl. rewrite emit_nil. reflexivity.
    + unfold Datetime.leb. apply Z.leb_gt. lia.
  - rewrite audit_week_loop_step.
    + unfold bind. rewrite audit_week_day_run.
      rewrite IH.
      * cbn [days_from flat_map].
        destruct n; rewrite ?day_world_emit, emit_emit; reflexivity.
      * unfold Datetime.timestamp, Datetime.add_days in *.
        cbn [wall utcoffset]. lia.
      * intro Hn. unfold Datetime.timestamp, Datetime.add_days in *.
        cbn [wall utcoffset]. specialize (Hle ltac:(discriminate)). lia.
    + unfold Datetime.leb. apply Z.leb_le.
      specialize (Hle ltac:(discriminate)). lia.
Qed.

(** ** The audit of a week, as a whole *)





(** ** Claim on the days of a week *)

(** C7.  For the window of a week, the loop over the days of
    [GCalAuditor.audit_week] raises nothing and prints exactly seven
    sections, one for each successive day from the start of the window;
    a section is the heading of the day followed by the marker of a day
    without events or by the table of the events of the day, and the
    percentages of every such table are of 86400 seconds, whatever the
    window duration was before and whatever the events of the day are. *)
Theorem week_has_seven_day_sections
        (date : Z) (events : list event) (w : world GCalAuditor.self_t) :
  let start_datetime := fst (DateInputter.input_week date) in
  let end_datetime := snd (DateInputter.input_week date) in
  let self' := self (day_world w) in
  let days := days_from start_datetime 7 in
  List.length (map (day_section self' 86400 events) days) = 7%nat
  /\ GCalAuditor.audit_week_loop events end_datetime start_datetime w
     = (Ok tt,
        emit (day_world w) (List.concat (map (day_section self' 86400 events) days)))
  /\ GCalAuditor._total_duration self' = Some 86400
  /\ Forall (fun cur_datetime =>
               (events_on_day events cur_datetime = []
                /\ day_section self' 86400 events cur_datetime
                   = [day_heading cur_datetime; NoEventsFound cur_datetime None])
               \/ (events_on_day events cur_datetime <> []
                   /\ day_section self' 86400 events cur_datetime
                      = day_heading cur_datetime
                        :: map Line
                             (auditor_table
                                (GCalAuditor.first_tag_only self') 86400
                                (GCalAuditor.categorize_events self'
                                   (events_on_day events cur_datetime)))))
            days.
Proof.
  cbv zeta. split; [reflexivity|]. split; [|split; [reflexivity|]].
  - rewrite (audit_week_loop_run events _ 7).
    + rewrite flat_map_concat_map. reflexivity.
    + unfold Datetime.timestamp, DateInputter.input_week. simpl. lia.
    + intros _. unfold Datetime.timestamp, DateInputter.input_week. simpl. lia.
  - apply Forall_forall. intros cur_datetime _. unfold day_section.
    destruct (events_on_day events cur_datetime) as [|e l].
    + left. split; reflexivity.
    + right. split; [discriminate|reflexivity].
Qed.

(** * Further properties of the code *)

(** ** The three variants of the engine *)

Lemma auditor_extract_by_flag (self : GCalAuditor.self_t) (e : event) :
  GCalAuditor.extract_event_categories self e
  = (if GCalAuditor.first_tag_only self
     then [hd "" (Analyze.extract_event_types e)]
     else Analyze.extract_event_types e).
Proof.
  assert (Hhd : forall m, strip (hd "" (split "," m)) = hd "" (map strip (split "," m))).
  { intro m. pose proof (split_not_nil "," m) as Hne.
    destruct (split "," m); [congruence|reflexivity]. }
  unfold GCalAuditor.extract_event_categories, Analyze.extract_event_types.
  destruct (description e) as [d|]; [destruct (findall_tags d) as [|m rest]|];
    destruct (GCalAuditor.first_tag_only self); simpl; rewrite ?Hhd; reflexivity.
Qed.

Lemma auditor_extract_single (self : GCalAuditor.self_t) (e : event) :
  GCalAuditor.first_tag_only self = true ->
  List.length (GCalAuditor.extract_event_categories self e) = 1%nat.
Proof. intro H. rewrite auditor_extract_by_flag, H. reflexivity. Qed.

(** X1.  The extraction of src/gcal/audit.py is the extraction of
    src/analyze.py, cut to its first label when the flag is set; so with
    the flag set every event has exactly one category. *)
Theorem auditor_extraction_is_first_or_all (self : GCalAuditor.self_t) (e : event) :
  GCalAuditor.extract_event_categories self e
  = (if GCalAuditor.first_tag_only self
     then [hd "" (Analyze.extract_event_types e)]
     else Analyze.extract_event_types e)
  /\ (GCalAuditor.first_tag_only self = true ->
      List.length (GCalAuditor.extract_event_categories self e) = 1%nat).
Proof.
  split; [apply auditor_extract_by_flag|apply auditor_extract_single].
Qed.

Lemma auditor_extraction_is_first_or_all_witness :
  GCalAuditor.first_tag_only (auditor_with true 86400) = true
  /\ List.length (GCalAuditor.extract_event_categories
                    (auditor_with true 86400) instant_two_tags) = 1%nat.
Proof.
  split; [reflexivity|].
  apply (proj2 (auditor_extraction_is_first_or_all
                  (auditor_with true 86400) instant_two_tags)).
  reflexivity.
Defined.

(** X2.  The three [categorize_events] are one function: the two classes
    return the same report when their flags agree, and src/analyze.py
    returns the report of the classes with the flag off. *)
Theorem variants_categorize_alike
        (sa : GCalAnalyzer.self_t) (sb : GCalAuditor.self_t) (events : list event) :
  GCalAnalyzer._analyze_first_tag_only sa = GCalAuditor.first_tag_only sb ->
  GCalAnalyzer.categorize_events sa events = GCalAuditor.categorize_events sb events
  /\ (GCalAuditor.first_tag_only sb = false ->
      Analyze.categorize_events events = GCalAuditor.categorize_events sb events).
Proof.
  intro Hflag. split; [|intro Hoff].
  - rewrite analyzer_categorize_aggregate, auditor_categorize_aggregate.
    f_equal. apply map_ext. intro e.
    unfold GCalAnalyzer.normalize, GCalAuditor.normalize. f_equal.
    unfold GCalAnalyzer.extract_event_categories,
      GCalAuditor.extract_event_categories.
    rewrite Hflag. reflexivity.
  - rewrite analyze_categorize_aggregate, auditor_categorize_aggregate.
    f_equal. apply map_ext. intro e.
    unfold Analyze.normalize, GCalAuditor.normalize. f_equal.
    rewrite (auditor_extract_by_flag sb e), Hoff.
    reflexivity.
Qed.

Lemma variants_categorize_alike_witness :
  GCalAnalyzer.categorize_events
    {| GCalAnalyzer._analyze_first_tag_only := false;
       GCalAnalyzer._total_duration := None |} [standup; coding]
  = GCalAuditor.categorize_events GCalAuditor.init [standup; coding]
  /\ Analyze.categorize_events [standup; coding]
     = GCalAuditor.categorize_events GCalAuditor.init [standup; coding].
Proof.
  destruct (variants_categorize_alike
              {| GCalAnalyzer._analyze_first_tag_only := false;
                 GCalAnalyzer._total_duration := None |}
              GCalAuditor.init [standup; coding] eq_refl) as [H1 H2].
  split; [exact H1|exact (H2 eq_refl)].
Defined.

(** ** What the report holds *)

Lemma first_encounter_In (k : string) (l : list string) :
  In k (first_encounter l) <-> In k l.
Proof.
  induction l as [|x r IH]; simpl; [tauto|].
  rewrite filter_In, IH. split.
  - intros [H|[H _]]; tauto.
  - intros [H|H]; [tauto|].
    destruct (String.eqb_spec k x) as [->|Hne]; [left; reflexivity|].
    right. split; [exact H|reflexivity].
Qed.

Lemma aggregate_keys (k : string) (events : list NormalizedEvent) :
  In k (map fst (aggregate events)) <-> In k (flat_map categories events).
Proof.
  assert (Hk : In k (map fst (accumulate events))
               <-> In k (flat_map categories events))
    by (rewrite keys_accumulate; apply first_encounter_In).
  rewrite <- Hk. unfold aggregate. split; intro H.
  - eapply Permutation_in; [|exact H]. apply Permutation_map, sorted_desc_perm.
  - eapply Permutation_in; [|exact H].
    apply Permutation_map, Permutation_sym, sorted_desc_perm.
Qed.

Lemma get_fold_add_event (events : list NormalizedEvent) (d : dict) (k : string) :
  get (fold_left add_event events d) k 0 = get d k 0 + label_total k events.
Proof.
  unfold label_total. revert d.
  induction events as [|e events IH]; intro d; simpl; [lia|].
  rewrite IH, get_add_event. lia.
Qed.

Lemma get_aggregate_total (events : list NormalizedEvent) (k : string) :
  get (aggregate events) k 0 = label_total k events.
Proof.
  rewrite get_aggregate. unfold accumulate. rewrite get_fold_add_event. reflexivity.
Qed.

Lemma label_total_perm (k : string) (l l' : list NormalizedEvent) :
  Permutation l l' -> label_total k l = label_total k l'.
Proof.
  unfold label_total. induction 1; simpl; lia.
Qed.

(** X3.  The report has an entry for a label exactly when some event lists
    the label, and the entry is the sum of the durations of the events that
    list it, each counted once for each time it lists it
    (src/analyze.py and src/gcal/audit.py). *)
Theorem report_entries (events : list event) (k : string) :
  (In k (map fst (Analyze.categorize_events events))
   <-> exists e, In e events /\ In k (Analyze.extract_event_types e))
  /\ get (Analyze.categorize_events events) k 0
     = label_total k (map Analyze.normalize events)
  /\ forall self : GCalAuditor.self_t,
      (In k (map fst (GCalAuditor.categorize_events self events))
       <-> exists e, In e events /\ In k (GCalAuditor.extract_event_categories self e))
      /\ get (GCalAuditor.categorize_events self events) k 0
         = label_total k (map (GCalAuditor.normalize self) events).
Proof.
  split; [|split; [|intro self; split]].
  - rewrite analyze_categorize_aggregate, aggregate_keys.
    rewrite flat_map_concat_map, map_map, <- flat_map_concat_map.
    simpl. rewrite in_flat_map. reflexivity.
  - rewrite analyze_categorize_aggregate. apply get_aggregate_total.
  - rewrite auditor_categorize_aggregate, aggregate_keys.
    rewrite flat_map_concat_map, map_map, <- flat_map_concat_map.
    simpl. rewrite in_flat_map. reflexivity.
  - rewrite auditor_categorize_aggregate. apply get_aggregate_total.
Qed.

(** X4.  The totals do not depend on the order of the events: two
    sequences with the same events give reports with the same labels, the
    same total for every label and the same sum (only the order of labels
    of equal total can change). *)
Theorem report_totals_order_free (events events' : list event) (self : GCalAuditor.self_t) :
  Permutation events events' ->
  (forall k,
      (In k (map fst (GCalAuditor.categorize_events self events))
       <-> In k (map fst (GCalAuditor.categorize_events self events')))
      /\ get (GCalAuditor.categorize_events self events) k 0
         = get (GCalAuditor.categorize_events self events') k 0)
  /\ sum_values (GCalAuditor.categorize_events self events)
     = sum_values (GCalAuditor.categorize_events self events').
Proof.
  intro Hp.
  assert (Hn : Permutation (map (GCalAuditor.normalize self) events)
                           (map (GCalAuditor.normalize self) events'))
    by (apply Permutation_map, Hp).
  rewrite !auditor_categorize_aggregate. split; [intro k; split|].
  - rewrite !aggregate_keys. split; intro H.
    + eapply Permutation_in; [|exact H]. apply Permutation_flat_map, Hn.
    + eapply Permutation_in; [|exact H].
      apply Permutation_flat_map, Permutation_sym, Hn.
  - rewrite !get_aggregate_total. apply label_total_perm, Hn.
  - rewrite !sum_values_aggregate.
    clear Hp. induction Hn; simpl; lia.
Qed.

Lemma report_totals_order_free_witness :
  Permutation [standup; coding] [coding; standup]
  /\ sum_values (GCalAuditor.categorize_events GCalAuditor.init [standup; coding])
     = sum_values (GCalAuditor.categorize_events GCalAuditor.init [coding; standup]).
Proof.
  split; [apply perm_swap|].
  apply (proj2 (report_totals_order_free [standup; coding] [coding; standup]
                  GCalAuditor.init (perm_swap _ _ _))).
Defined.

(** X5.  With the flag set the report sums to the sum of the durations of
    the events, whatever their signs: this is the duration of the row
    "Total" (src/gcal/audit.py and src/gcal/analyze.py). *)
Theorem first_tag_report_sums_durations (events : list event) :
  (forall self : GCalAuditor.self_t,
      GCalAuditor.first_tag_only self = true ->
      sum_values (GCalAuditor.categorize_events self events)
      = fold_right Z.add 0 (map GCalAuditor.event_duration events))
  /\ (forall self : GCalAnalyzer.self_t,
        GCalAnalyzer._analyze_first_tag_only self = true ->
        sum_values (GCalAnalyzer.categorize_events self events)
        = fold_right Z.add 0 (map GCalAnalyzer.extract_duration events)).
Proof.
  split; intros self Hflag.
  - rewrite auditor_categorize_aggregate, sum_values_aggregate, !map_map.
    f_equal. apply map_ext. intro e. simpl.
    rewrite (auditor_extract_single self e Hflag). lia.
  - rewrite analyzer_categorize_aggregate, sum_values_aggregate, !map_map.
    f_equal. apply map_ext. intro e. simpl.
    unfold GCalAnalyzer.extract_event_categories. rewrite Hflag.
    destruct (description e) as [d|]; [destruct (findall_tags d)|]; simpl; lia.
Qed.

Lemma first_tag_report_sums_durations_witness :
  GCalAuditor.first_tag_only (auditor_with true 86400) = true
  /\ sum_values (GCalAuditor.categorize_events (auditor_with true 86400)
                   [instant_two_tags; work_twice])
     = fold_right Z.add 0
         (map GCalAuditor.event_duration [instant_two_tags; work_twice]).
Proof.
  split; [reflexivity|].
  apply (proj1 (first_tag_report_sums_durations [instant_two_tags; work_twice])).
  reflexivity.
Defined.

(** ** The audits of src/gcal/audit.py *)


Lemma set_tag_option_run (answer : string) (w : world GCalAuditor.self_t) :
  GCalAuditor.set_tag_option answer w
  = (Ok tt,
     {| self := {| GCalAuditor._audit_first_tag_only := Some (tag_flag answer);
                   GCalAuditor._total_duration :=
                     GCalAuditor._total_duration (self w) |};
        stdout := stdout w ++ [Line "audit the first tag only?";
                               Prompt "Enter y/n: "];
        log := log w |}).
Proof.
  unfold GCalAuditor.set_tag_option, bind, print, get_self, set_self, tag_flag.
  cbn [self stdout log]. rewrite <- app_assoc. reflexivity.
Qed.









(** X10.  The range that [query_events] asks the service for is made of
    whole days: it is the window itself for the windows of a day and of a
    week, and for a datetime range with times of day it holds the window,
    starting at most a day before it and ending at most a day after it. *)
Theorem query_range_holds_window
        (date start_date end_date : Z) (start_time end_time : AuditRange.clock) :
  0 <= AuditRange.seconds_of start_time < 86400 ->
  0 <= AuditRange.seconds_of end_time < 86400 ->
  let day := DateInputter.input_day date in
  let week := DateInputter.input_week date in
  let range := AuditRange.input_datetime_range
                 start_date (Some start_time) (Some end_date) (Some end_time) in
  let asked := AuditRange.query_range (fst range) (snd range) in
  AuditRange.query_range (fst day) (snd day) = day
  /\ AuditRange.query_range (fst week) (snd week) = week
  /\ Datetime.timestamp (fst range) - 86400
     < Datetime.timestamp (fst asked) <= Datetime.timestamp (fst range)
  /\ Datetime.timestamp (snd range)
     <= Datetime.timestamp (snd asked) < Datetime.timestamp (snd range) + 86400.
Proof.
  intros Hs He. cbv zeta.
  unfold AuditRange.query_range, AuditRange.input_datetime_range,
    DateInputter.input_day, DateInputter.input_week,
    Datetime.date, Datetime.timestamp.
  cbn [fst snd wall utcoffset].
  replace (date * 86400 / 86400) with date by (symmetry; apply Z.div_mul; lia).
  replace ((date * 86400 + 86399) / 86400) with date
    by (apply (Z.div_unique _ _ _ 86399); lia).
  replace (((date + 6) * 86400 + 86399) / 86400) with (date + 6)
    by (apply (Z.div_unique _ _ _ 86399); lia).
  replace ((start_date * 86400 + AuditRange.seconds_of start_time) / 86400)
    with start_date
    by (apply (Z.div_unique _ _ _ (AuditRange.seconds_of start_time)); lia).
  replace ((end_date * 86400 + AuditRange.seconds_of end_time) / 86400)
    with end_date
    by (apply (Z.div_unique _ _ _ (AuditRange.seconds_of end_time)); lia).
  repeat split; try reflexivity; lia.
Qed.

Lemma query_range_holds_window_witness :
  let range := AuditRange.input_datetime_range 19723 (Some (9, 30)) (Some 19723)
                                               (Some (17, 0)) in
  let asked := AuditRange.query_range (fst range) (snd range) in
  Datetime.timestamp (fst asked) <= Datetime.timestamp (fst range)
  /\ Datetime.timestamp (snd range) <= Datetime.timestamp (snd asked).
Proof.
  pose proof (query_range_holds_window 19723 19723 19723 (9, 30) (17, 0)) as H.
  cbv zeta in *. unfold AuditRange.seconds_of in H. cbn [fst snd] in H.
  destruct (H ltac:(lia) ltac:(lia)) as [_ [_ [[_ H1] [H2 _]]]].
  split; assumption.
Defined.

(** ** The entry point of src/analyze.py *)



(** ** The cells of the table *)

Lemma fmt_02d_two_digits (m : Z) :
  0 <= m < 60 ->
  fmt_02d m = String (digit (m / 10)) (String (digit (m mod 10)) "").
Proof.
  intro H. replace m with (Z.of_nat (Z.to_nat m)) by lia.
  assert (Hk : (Z.to_nat m < 60)%nat) by lia.
  revert Hk. generalize (Z.to_nat m). intros k Hk.
  do 60 (destruct k as [|k]; [reflexivity|]). lia.
Qed.

(** X12.  The duration column cuts a duration to the minute, never rounds
    it up: the hours are the whole hours of the seconds (by floor division,
    so below zero for a negative duration), the minutes the whole minutes
    left, always written with two digits. *)
Theorem hours_minutes_truncates (seconds : Z) :
  let h := seconds / 3600 in
  let m := (seconds / 60) mod 60 in
  hours_minutes seconds
  = str_int h +++ ":" +++ String (digit (m / 10)) (String (digit (m mod 10)) "")
  /\ 0 <= m < 60
  /\ 3600 * h + 60 * m <= seconds < 3600 * h + 60 * m + 60.
Proof.
  cbv zeta.
  assert (Hm : 0 <= (seconds / 60) mod 60 < 60) by (apply Z.mod_pos_bound; lia).
  assert (Hh : seconds / 60 / 60 = seconds / 3600)
    by (rewrite Z.div_div by lia; reflexivity).
  split; [|split; [exact Hm|]].
  - unfold hours_minutes, SECS_IN_MINUTE, MINUTES_IN_HOUR.
    rewrite Hh, fmt_02d_two_digits by exact Hm. reflexivity.
  - pose proof (Z.div_mod seconds 60 ltac:(lia)) as H1.
    pose proof (Z.mod_pos_bound seconds 60 ltac:(lia)) as H2.
    pose proof (Z.div_mod (seconds / 60) 60 ltac:(lia)) as H3.
    rewrite Hh in H3. lia.
Qed.

Lemma length_app (a b : string) :
  String.length (a +++ b) = (String.length a + String.length b)%nat.
Proof. induction a as [|c a IH]; simpl; [reflexivity|rewrite IH; reflexivity]. Qed.

Lemma length_repeat_char (c : ascii) (n : nat) : String.length (repeat_char c n) = n.
Proof. induction n as [|n IH]; simpl; [reflexivity|rewrite IH; reflexivity]. Qed.

Lemma length_center (s : string) (w : nat) :
  String.length (center s w) = Nat.max (String.length s) w.
Proof.
  unfold center. rewrite !length_app, !length_repeat_char.
  assert (H : (Nat.div (w - String.length s) 2 <= w - String.length s)%nat)
    by (apply Nat.Div0.div_le_upper_bound; lia).
  lia.
Qed.

Lemma length_ljust (s : string) (w : nat) :
  String.length (ljust s w) = Nat.max (String.length s) w.
Proof. unfold ljust. rewrite length_app, length_repeat_char. lia. Qed.

Lemma fold_max_bounds (xs : list nat) (x : nat) :
  (x <= fold_left Nat.max xs x)%nat
  /\ forall y, In y xs -> (y <= fold_left Nat.max xs x)%nat.
Proof.
  revert x. induction xs as [|z xs IH]; intro x; simpl.
  - split; [lia|tauto].
  - destruct (IH (Nat.max x z)) as [H1 H2]. split; [lia|].
    intros y [->|Hy]; [lia|apply H2, Hy].
Qed.

(** X13.  The first column is as wide as the longest label: every label
    fits, and its cell has exactly that width in the table of a class
    (centred) and in the table of src/analyze.py (left aligned).  The title
    of a class is never narrower than its heading "Event Type": it has
    28 characters and the larger of 10 and the width, and the border has
    the length of the title. *)
Theorem table_geometry (categories : dict) (w : nat) (item : string * Z) :
  max (map (fun item => String.length (fst item)) categories) = Ok w ->
  In item categories ->
  (String.length (fst item) <= w)%nat
  /\ String.length (center (fst item) w) = w
  /\ String.length (ljust (fst item) w) = w
  /\ String.length (GCalAuditor.title w) = (28 + Nat.max 10 w)%nat
  /\ String.length (border (GCalAuditor.title w))
     = String.length (GCalAuditor.title w).
Proof.
  intros Hmax Hin.
  assert (Hfit : (String.length (fst item) <= w)%nat).
  { destruct categories as [|x l]; [destruct Hin|].
    simpl in Hmax. injection Hmax as <-.
    destruct (fold_max_bounds (map (fun it => String.length (fst it)) l)
                              (String.length (fst x))) as [H1 H2].
    destruct Hin as [->|Hin]; [exact H1|].
    apply H2. apply in_map_iff. exists item. split; [reflexivity|exact Hin]. }
  assert (Ht : String.length (GCalAuditor.title w) = (28 + Nat.max 10 w)%nat).
  { unfold GCalAuditor.title. rewrite !length_app, !length_center. simpl. lia. }
  repeat split.
  - exact Hfit.
  - rewrite length_center. lia.
  - rewrite length_ljust. lia.
  - exact Ht.
  - unfold border. rewrite !length_app, length_repeat_char, Ht. simpl. lia.
Qed.

Lemma table_geometry_witness :
  max (map (fun item => String.length (fst item))
           [("Work", 7200); ("Standup", 3600)]) = Ok 7%nat
  /\ String.length (center "Work" 7) = 7%nat
  /\ String.length (GCalAuditor.title 7) = (28 + Nat.max 10 7)%nat.
Proof.
  assert (Hmax : max (map (fun item => String.length (fst item))
                          [("Work", 7200); ("Standup", 3600)]) = Ok 7%nat)
    by reflexivity.
  destruct (table_geometry [("Work", 7200); ("Standup", 3600)] 7 ("Work", 7200)
                           Hmax (or_introl eq_refl)) as [_ [H1 [_ [H2 _]]]].
  split; [exact Hmax|]. split; [exact H1|exact H2].
Defined.

(** ** The tag annotation *)

Lemma occurs_app (c : ascii) (a b : string) :
  occurs c (a +++ b) = occurs c a || occurs c b.
Proof.
  induction a as [|x a IH]; simpl; [reflexivity|].
  rewrite IH, orb_assoc. reflexivity.
Qed.

Lemma occurs_lstrip (c : ascii) (s : string) :
  occurs c s = false -> occurs c (lstrip s) = false.
Proof.
  induction s as [|x s IH]; simpl; [trivial|].
  intro H. apply orb_false_iff in H. destruct H as [Hx Hs].
  destruct (isspace x); [apply IH, Hs|].
  simpl. rewrite Hx, Hs. reflexivity.
Qed.

Lemma occurs_rstrip (c : ascii) (s : string) :
  occurs c s = false -> occurs c (rstrip s) = false.
Proof.
  induction s as [|x s IH]; simpl; [trivial|].
  intro H. apply orb_false_iff in H. destruct H as [Hx Hs].
  specialize (IH Hs). destruct (rstrip s) as [|y r].
  - destruct (isspace x); simpl; [reflexivity|rewrite Hx; reflexivity].
  - cbn [occurs] in *. rewrite Hx, IH. reflexivity.
Qed.

Lemma occurs_strip (c : ascii) (s : string) :
  occurs c s = false -> occurs c (strip s) = false.
Proof. intro H. apply occurs_rstrip, occurs_lstrip, H. Qed.

Lemma rstrip_idempotent (s : string) : rstrip (rstrip s) = rstrip s.
Proof.
  induction s as [|x s IH]; simpl; [reflexivity|].
  destruct (rstrip s) as [|y r] eqn:Hr.
  - destruct (isspace x) eqn:Hx; simpl; [reflexivity|rewrite Hx; reflexivity].
  - change (rstrip (String x (String y r)))
      with (match rstrip (String y r) with
            | EmptyString => if isspace x then EmptyString else String x EmptyString
            | String _ _ as r0 => String x r0
            end).
    rewrite IH. reflexivity.
Qed.

Lemma rstrip_keeps_head (x : ascii) (s : string) :
  isspace x = false -> rstrip (String x s) = String x (rstrip s).
Proof.
  intro Hx. simpl. destruct (rstrip s); [rewrite Hx|]; reflexivity.
Qed.

Lemma lstrip_head (s : string) :
  lstrip s = EmptyString
  \/ exists x r, lstrip s = String x r /\ isspace x = false.
Proof.
  induction s as [|x s IH]; simpl; [left; reflexivity|].
  destruct (isspace x) eqn:Hx; [exact IH|].
  right. exists x, s. split; [reflexivity|exact Hx].
Qed.

Lemma strip_idempotent (s : string) : strip (strip s) = strip s.
Proof.
  unfold strip.
  destruct (lstrip_head s) as [H|[x [r [H Hx]]]]; rewrite H.
  - reflexivity.
  - rewrite (rstrip_keeps_head x r Hx). simpl lstrip. rewrite Hx.
    rewrite <- (rstrip_keeps_head x r Hx). apply rstrip_idempotent.
Qed.

Lemma split_pieces (sep c : ascii) (s : string) :
  Forall (fun piece => occurs sep piece = false
                       /\ (occurs c s = false -> occurs c piece = false))
         (split sep s).
Proof.
  induction s as [|x s IH]; simpl.
  - constructor; [split; trivial|constructor].
  - destruct (Ascii.eqb x sep) eqn:Hx.
    + constructor; [split; reflexivity|].
      eapply Forall_impl; [|exact IH]. simpl. intros p [Hp Hc].
      split; [exact Hp|]. intro H. apply orb_false_iff in H. apply Hc, H.
    + pose proof (split_not_nil sep s) as Hne.
      destruct (split sep s) as [|p rest]; [congruence|].
      inversion IH as [|? ? [Hp Hc] Hrest]; subst.
      constructor.
      * simpl. rewrite Hx, Hp. split; [reflexivity|].
        intro H. apply orb_false_iff in H. destruct H as [H1 H2].
        rewrite H1, (Hc H2). reflexivity.
      * eapply Forall_impl; [|exact Hrest]. simpl. intros q [Hq Hqc].
        split; [exact Hq|]. intro H. apply orb_false_iff in H. apply Hqc, H.
Qed.

Lemma lazy_until_bracket_plain (s g : string) :
  lazy_until_bracket s = Some g ->
  occurs "]" g = false /\ occurs newline g = false.
Proof.
  revert g. induction s as [|x s IH]; simpl; intros g Hg; [discriminate|].
  destruct (Ascii.eqb x "]") eqn:Hb.
  - injection Hg as <-. split; reflexivity.
  - destruct (Ascii.eqb x newline) eqn:Hn; [discriminate|].
    destruct (lazy_until_bracket s) as [g'|]; [|discriminate].
    injection Hg as <-. destruct (IH g' eq_refl) as [H1 H2].
    simpl. rewrite Hb, Hn, H1, H2. split; reflexivity.
Qed.

Lemma findall_plain (s : string) (skip : nat) :
  Forall (fun g => occurs "]" g = false /\ occurs newline g = false)
         (findall_from skip s).
Proof.
  revert skip. induction s as [|x s IH]; intro skip; [constructor|].
  cbn [findall_from]. destruct skip as [|k]; [|apply IH].
  destruct (tag_group (String x s)) as [g|] eqn:Hg; [|apply IH].
  constructor; [|apply IH].
  unfold tag_group in Hg.
  destruct (String.prefix "[Tags:" (String x s)); [|discriminate].
  eapply lazy_until_bracket_plain, Hg.
Qed.

Lemma tag_block_labels_plain (m : string) :
  occurs "]" m = false -> occurs newline m = false ->
  Forall plain_label (map strip (split "," m)).
Proof.
  intros Hb Hn. apply Forall_map.
  pose proof (split_pieces "," "]" m) as H1.
  pose proof (split_pieces "," newline m) as H2.
  rewrite Forall_forall in *. intros p Hp.
  destruct (H1 p Hp) as [Hc Hpb]. destruct (H2 p Hp) as [_ Hpn].
  unfold plain_label. repeat split.
  - apply strip_idempotent.
  - apply occurs_strip, Hc.
  - apply occurs_strip, Hpb, Hb.
  - apply occurs_strip, Hpn, Hn.
Qed.

(** X14.  The categories that come from a tag block are trimmed and hold
    no comma, no closing bracket and no newline: a label cannot carry
    these characters (src/analyze.py and src/gcal/audit.py). *)
Theorem tag_labels_are_plain (e : event) (d m : string) (rest : list string) :
  description e = Some d ->
  findall_tags d = m :: rest ->
  Forall plain_label (Analyze.extract_event_types e)
  /\ forall self, Forall plain_label (GCalAuditor.extract_event_categories self e).
Proof.
  intros Hd Hm.
  assert (Hplain : Forall plain_label (map strip (split "," m))).
  { pose proof (findall_plain d 0) as H. unfold findall_tags in Hm.
    rewrite Hm in H. inversion H as [|? ? [Hb Hn] _]; subst.
    apply tag_block_labels_plain; assumption. }
  assert (Ha : Analyze.extract_event_types e = map strip (split "," m))
    by (unfold Analyze.extract_event_types; rewrite Hd, Hm; reflexivity).
  split; [rewrite Ha; exact Hplain|].
  intro self. rewrite (auditor_extract_by_flag self e), Ha.
  destruct (GCalAuditor.first_tag_only self); [|exact Hplain].
  pose proof (map_strip_split_not_nil m) as Hne.
  destruct (map strip (split "," m)) as [|l ls]; [congruence|].
  inversion Hplain; subst. constructor; [assumption|constructor].
Qed.

Lemma tag_labels_are_plain_witness :
  Forall plain_label (Analyze.extract_event_types work_twice).
Proof.
  apply (proj1 (tag_labels_are_plain work_twice "[Tags: Work, Work]"
                                     " Work, Work" [] eq_refl eq_refl)).
Defined.

Lemma append_associative (a b c : string) : (a +++ b) +++ c = a +++ b +++ c.
Proof. induction a as [|x a IH]; simpl; [reflexivity|rewrite IH; reflexivity]. Qed.

Lemma substring_whole (s : string) : String.substring 0 (String.length s) s = s.
Proof. induction s as [|x s IH]; simpl; [reflexivity|rewrite IH; reflexivity]. Qed.

Lemma tag_group_elsewhere (x : ascii) (s : string) :
  Ascii.eqb x "[" = false -> tag_group (String x s) = None.
Proof.
  intro Hx. unfold tag_group.
  change (String.prefix "[Tags:" (String x s))
    with (if ascii_dec "[" x then String.prefix "Tags:" s else false).
  destruct (ascii_dec "[" x) as [<-|Hne]; [discriminate|reflexivity].
Qed.

Lemma findall_skips_text (pre s : string) :
  occurs "[" pre = false -> findall_from 0 (pre +++ s) = findall_from 0 s.
Proof.
  induction pre as [|x pre IH]; [reflexivity|].
  cbn [occurs String.append findall_from].
  intro H. apply orb_false_iff in H. destruct H as [Hx Hpre].
  rewrite tag_group_elsewhere by exact Hx. apply IH, Hpre.
Qed.

Lemma lazy_until_bracket_block (g rest : string) :
  occurs "]" g = false -> occurs newline g = false ->
  lazy_until_bracket (g +++ String "]" rest) = Some g.
Proof.
  induction g as [|x g IH]; simpl; [reflexivity|].
  intros Hb Hn. apply orb_false_iff in Hb. apply orb_false_iff in Hn.
  destruct Hb as [Hb1 Hb2]. destruct Hn as [Hn1 Hn2].
  rewrite Hb1, Hn1, IH by assumption. reflexivity.
Qed.

Lemma prefix_tags (s : string) : String.prefix "[Tags:" ("[Tags:" +++ s) = true.
Proof. destruct s; reflexivity. Qed.

Lemma substring_drop (n m : nat) (c : ascii) (s : string) :
  String.substring (S n) m (String c s) = String.substring n m s.
Proof. destruct m; reflexivity. Qed.

Lemma substring_after_tags (s : string) :
  String.substring 6 (String.length ("[Tags:" +++ s) - 6) ("[Tags:" +++ s) = s.
Proof.
  replace (String.length ("[Tags:" +++ s) - 6)%nat with (String.length s)
    by (cbn [String.length String.append]; lia).
  change ("[Tags:" +++ s)
    with (String "[" (String "T" (String "a" (String "g" (String "s" (String ":" s)))))).
  rewrite !substring_drop. apply substring_whole.
Qed.

Lemma tag_group_block (g rest : string) :
  occurs "]" g = false -> occurs newline g = false ->
  tag_group ("[Tags:" +++ g +++ String "]" rest) = Some g.
Proof.
  intros Hb Hn. unfold tag_group.
  rewrite prefix_tags.
  rewrite substring_after_tags. apply lazy_until_bracket_block; assumption.
Qed.

Lemma split_single (p : string) : occurs "," p = false -> split "," p = [p].
Proof.
  induction p as [|x p IH]; simpl; [reflexivity|].
  intro H. apply orb_false_iff in H. destruct H as [Hx Hp].
  rewrite Hx, IH by assumption. reflexivity.
Qed.

Lemma split_piece_then (p s : string) :
  occurs "," p = false -> split "," (p +++ String "," s) = p :: split "," s.
Proof.
  induction p as [|x p IH]; simpl; [reflexivity|].
  intro H. apply orb_false_iff in H. destruct H as [Hx Hp].
  rewrite Hx, IH by assumption. reflexivity.
Qed.

Lemma split_join_comma (pieces : list string) :
  pieces <> [] -> Forall (fun p => occurs "," p = false) pieces ->
  split "," (join_comma pieces) = pieces.
Proof.
  induction pieces as [|p rest IH]; [congruence|]. intros _ HF.
  inversion HF as [|? ? Hp Hrest]; subst.
  destruct rest as [|q rest].
  - simpl. apply split_single, Hp.
  - change (join_comma (p :: q :: rest))
      with (p +++ String "," (join_comma (q :: rest))).
    rewrite split_piece_then by exact Hp.
    rewrite IH by (discriminate || exact Hrest). reflexivity.
Qed.

Lemma occurs_join_comma (c : ascii) (pieces : list string) :
  Ascii.eqb "," c = false ->
  Forall (fun p => occurs c p = false) pieces ->
  occurs c (join_comma pieces) = false.
Proof.
  intro Hc. induction 1 as [|p rest Hp Hrest IH]; [reflexivity|].
  destruct rest as [|q rest]; [exact Hp|].
  change (join_comma (p :: q :: rest))
    with (p +++ String "," (join_comma (q :: rest))).
  rewrite occurs_app. cbn [occurs]. rewrite Hp, Hc, IH. reflexivity.
Qed.

(** X15.  What is written is what is read: when a description carries,
    after a text without an opening bracket, the annotation
    ["[Tags: a, b, ...]"] of plain labels, the categories are these labels,
    in their order, whatever follows the annotation (further annotations
    included); with the flag set it is the first of them
    (src/analyze.py and src/gcal/audit.py). *)
Theorem tag_annotation_round_trip
        (e : event) (pre rest : string) (labels : list string) :
  labels <> [] ->
  Forall plain_label labels ->
  occurs "[" pre = false ->
  description e = Some (pre +++ tag_annotation labels +++ rest) ->
  Analyze.extract_event_types e = labels
  /\ forall self,
      GCalAuditor.extract_event_categories self e
      = if GCalAuditor.first_tag_only self then [hd "" labels] else labels.
Proof.
  intros Hne Hplain Hpre Hd.
  set (pieces := map (fun l => " " +++ l) labels).
  assert (Hpieces : forall c, Ascii.eqb " " c = false ->
                              Forall (fun l => occurs c l = false) labels ->
                              Forall (fun p => occurs c p = false) pieces).
  { intros c Hc HF. unfold pieces. apply Forall_map.
    eapply Forall_impl; [|exact HF]. intros l Hl.
    change (occurs c (" " +++ l)) with (Ascii.eqb " " c || occurs c l).
    rewrite Hl, Hc. reflexivity. }
  assert (Hcomma : Forall (fun p => occurs "," p = false) pieces).
  { apply Hpieces; [reflexivity|].
    eapply Forall_impl; [|exact Hplain]. intros l Hl. apply Hl. }
  assert (Hfind : exists more,
             findall_tags (pre +++ tag_annotation labels +++ rest)
             = join_comma pieces :: more).
  { unfold findall_tags, tag_annotation. fold pieces.
    rewrite findall_skips_text by exact Hpre.
    rewrite !append_associative.
    change ("]" +++ rest) with (String "]" rest).
    change ("[Tags:" +++ join_comma pieces +++ String "]" rest)
      with (String "[" ("Tags:" +++ join_comma pieces +++ String "]" rest)).
    cbn [findall_from].
    change (String "[" ("Tags:" +++ join_comma pieces +++ String "]" rest))
      with ("[Tags:" +++ join_comma pieces +++ String "]" rest).
    rewrite tag_group_block.
    - eexists. reflexivity.
    - apply occurs_join_comma; [reflexivity|]. apply Hpieces; [reflexivity|].
      eapply Forall_impl; [|exact Hplain]. intros l Hl. apply Hl.
    - apply occurs_join_comma; [reflexivity|]. apply Hpieces; [reflexivity|].
      eapply Forall_impl; [|exact Hplain]. intros l Hl. apply Hl. }
  destruct Hfind as [more Hfind].
  assert (Hlabels : map strip (split "," (join_comma pieces)) = labels).
  { rewrite split_join_comma.
    - unfold pieces. rewrite map_map.
      rewrite <- (map_id labels) at 2. apply map_ext_in.
      intros l Hl. rewrite Forall_forall in Hplain.
      destruct (Hplain l Hl) as [Hs _].
      unfold strip in *. simpl. exact Hs.
    - unfold pieces. destruct labels; [congruence|discriminate].
    - exact Hcomma. }
  assert (Ha : Analyze.extract_event_types e = labels)
    by (unfold Analyze.extract_event_types; rewrite Hd, Hfind; exact Hlabels).
  split; [exact Ha|].
  intro self. rewrite (auditor_extract_by_flag self e), Ha.
  reflexivity.
Qed.

Lemma tag_annotation_round_trip_witness :
  Analyze.extract_event_types
    {| start_dateTime := at_utc_minus_5 19723 9 0;
       end_dateTime := at_utc_minus_5 19723 10 0;
       summary := "Sync";
       description :=
         Some ("Weekly. " +++ tag_annotation ["Work"; "Meetings"] +++ " [Tags: X]") |}
  = ["Work"; "Meetings"].
Proof.
  refine (proj1 (tag_annotation_round_trip
                   {| start_dateTime := at_utc_minus_5 19723 9 0;
                      end_dateTime := at_utc_minus_5 19723 10 0;
                      summary := "Sync";
                      description :=
                        Some ("Weekly. " +++ tag_annotation ["Work"; "Meetings"]
                              +++ " [Tags: X]") |}
                   "Weekly. " " [Tags: X]" ["Work"; "Meetings"] _ _ _ _)).
  - discriminate.
  - repeat constructor.
  - reflexivity.
  - reflexivity.
Defined.

(** ** The days of the month within a week *)

Lemma day_of_month_doe (z : Z) :
  let doe := (z + 719468) mod 146097 in
  day_of_month z = day_in_year (doe - year_start (year_of_era doe)).
Proof.
  cbv zeta. unfold day_of_month, Datetime.civil. cbv zeta. cbn [snd].
  replace (z + 719468 - (z + 719468) / 146097 * 146097)
    with ((z + 719468) mod 146097)
    by (rewrite Z.mod_eq by lia; lia).
  reflexivity.
Qed.

Lemma year_length (y : Z) : 365 <= year_start (y + 1) - year_start y <= 366.
Proof. unfold year_start. Z.div_mod_to_equations. lia. Qed.

(** The year of a day of the era is the year whose days hold it. *)
Lemma year_of_era_spec (y doe : Z) :
  0 <= y < 400 ->
  year_start y <= doe < year_start (y + 1) ->
  year_of_era doe = y.
Proof.
  intros Hy H. unfold year_of_era, year_start in *.
  Z.div_mod_to_equations. lia.
Qed.

Lemma year_exists (doe : Z) :
  0 <= doe < 146096 ->
  exists y, 0 <= y < 400 /\ year_start y <= doe < year_start (y + 1).
Proof.
  intros [H0 H1].
  assert (Hgen : forall n : nat,
             doe < year_start (Z.of_nat n) ->
             exists y, 0 <= y < Z.of_nat n
                       /\ year_start y <= doe < year_start (y + 1)).
  { induction n as [|n IH]; intro Hlt.
    - change (year_start (Z.of_nat 0)) with 0 in Hlt. lia.
    - rewrite Nat2Z.inj_succ in Hlt. unfold Z.succ in Hlt.
      destruct (Z_le_gt_dec (year_start (Z.of_nat n)) doe) as [Hle|Hgt].
      + exists (Z.of_nat n). split; [lia|]. split; assumption.
      + destruct (IH ltac:(lia)) as [y [Hy Hr]]. exists y. split; [lia|exact Hr]. }
  destruct (Hgen 400%nat) as [y [Hy Hr]].
  - replace (year_start (Z.of_nat 400)) with 146096 by (vm_compute; reflexivity).
    exact H1.
  - exists y. split; [lia|exact Hr].
Qed.

Lemma day_in_year_steps :
  forallb (fun doy => (day_in_year (doy + 1) =? day_in_year doy + 1)
                      || ((day_in_year (doy + 1) =? 1) && (28 <=? day_in_year doy)))
          (map Z.of_nat (seq 0 365)) = true.
Proof. vm_compute. reflexivity. Qed.

Lemma day_in_year_step (doy : Z) :
  0 <= doy < 365 ->
  day_in_year (doy + 1) = day_in_year doy + 1
  \/ (day_in_year (doy + 1) = 1 /\ 28 <= day_in_year doy).
Proof.
  intro H. pose proof day_in_year_steps as Hall.
  rewrite forallb_forall in Hall.
  assert (Hin : In doy (map Z.of_nat (seq 0 365))).
  { apply in_map_iff. exists (Z.to_nat doy). split; [lia|].
    apply in_seq. lia. }
  specialize (Hall doy Hin). cbv beta in Hall.
  apply orb_true_iff in Hall. destruct Hall as [Hs|Hs].
  - left. apply Z.eqb_eq, Hs.
  - right. apply andb_true_iff in Hs. destruct Hs as [H1 H2].
    split; [apply Z.eqb_eq, H1|apply Z.leb_le, H2].
Qed.

Lemma day_in_year_end (doy : Z) : 364 <= doy <= 365 -> 28 <= day_in_year doy.
Proof.
  intro H. assert (Hc : doy = 364 \/ doy = 365) by lia.
  destruct Hc as [->| ->]; vm_compute; discriminate.
Qed.

Lemma next_day_of_era (z : Z) :
  let doe := (z + 719468) mod 146097 in
  (z + 1 + 719468) mod 146097 = if doe =? 146096 then 0 else doe + 1.
Proof.
  cbv zeta.
  pose proof (Z.div_mod (z + 719468) 146097 ltac:(lia)) as Hd.
  pose proof (Z.mod_pos_bound (z + 719468) 146097 ltac:(lia)) as Hb.
  destruct (Z.eqb_spec ((z + 719468) mod 146097) 146096) as [He|Hne]; symmetry.
  - apply (Z.mod_unique _ _ ((z + 719468) / 146097 + 1)); lia.
  - apply (Z.mod_unique _ _ ((z + 719468) / 146097)); lia.
Qed.

(** From a day to the next the day of the month grows by one, or falls
    back to 1 from 28 or more. *)
Lemma month_step_always (z : Z) :
  day_of_month (z + 1) = day_of_month z + 1
  \/ (day_of_month (z + 1) = 1 /\ 28 <= day_of_month z).
Proof.
  pose proof (day_of_month_doe z) as Hz.
  pose proof (day_of_month_doe (z + 1)) as Hz1.
  pose proof (next_day_of_era z) as Hnext.
  cbv zeta in Hz, Hz1, Hnext. rewrite Hz, Hz1, Hnext. clear Hz Hz1 Hnext.
  assert (Hdoe : 0 <= (z + 719468) mod 146097 < 146097)
    by (apply Z.mod_pos_bound; lia).
  revert Hdoe. generalize ((z + 719468) mod 146097). intros doe Hdoe.
  destruct (Z.eqb_spec doe 146096) as [->|Hnot].
  - right. vm_compute. split; [reflexivity|discriminate].
  - destruct (Z.eq_dec doe 146095) as [->|Hnot'].
    + left. vm_compute. reflexivity.
    + destruct (year_exists doe ltac:(lia)) as [y [Hy Hr]].
      pose proof (year_of_era_spec y doe Hy Hr) as Hyear.
      pose proof (year_length y) as Hlen.
      rewrite Hyear.
      destruct (Z_lt_ge_dec (doe + 1) (year_start (y + 1))) as [Hin|Hout].
      * rewrite (year_of_era_spec y (doe + 1) Hy) by lia.
        replace (doe + 1 - year_start y) with (doe - year_start y + 1) by lia.
        apply day_in_year_step. lia.
      * assert (Heq : doe + 1 = year_start (y + 1)) by lia.
        assert (Hy1 : y + 1 < 400).
        { destruct (Z.eq_dec y 399) as [->|Hne]; [exfalso|lia].
          replace (year_start (399 + 1)) with 146096 in Heq
            by (vm_compute; reflexivity).
          lia. }
        pose proof (year_length (y + 1)) as Hlen1.
        rewrite (year_of_era_spec (y + 1) (doe + 1)) by lia.
        rewrite Heq, Z.sub_diag.
        right. split; [reflexivity|]. apply day_in_year_end. lia.
Qed.

Lemma week_days_of_month_differ (z i j : Z) :
  0 <= i <= 6 -> 0 <= j <= 6 ->
  day_of_month (z + i) = day_of_month (z + j) -> i = j.
Proof.
  intros Hi Hj.
  pose proof (month_step_always (z + 0)) as S0.
  pose proof (month_step_always (z + 1)) as S1.
  pose proof (month_step_always (z + 2)) as S2.
  pose proof (month_step_always (z + 3)) as S3.
  pose proof (month_step_always (z + 4)) as S4.
  pose proof (month_step_always (z + 5)) as S5.
  replace (z + 0 + 1) with (z + 1) in S0 by lia.
  replace (z + 1 + 1) with (z + 2) in S1 by lia.
  replace (z + 2 + 1) with (z + 3) in S2 by lia.
  replace (z + 3 + 1) with (z + 4) in S3 by lia.
  replace (z + 4 + 1) with (z + 5) in S4 by lia.
  replace (z + 5 + 1) with (z + 6) in S5 by lia.
  assert (Ei : i = 0 \/ i = 1 \/ i = 2 \/ i = 3 \/ i = 4 \/ i = 5 \/ i = 6) by lia.
  assert (Ej : j = 0 \/ j = 1 \/ j = 2 \/ j = 3 \/ j = 4 \/ j = 5 \/ j = 6) by lia.
  clear Hi Hj.
  repeat (destruct Ei as [->|Ei]); try subst i;
    repeat (destruct Ej as [->|Ej]); try subst j;
    intro Heq; try reflexivity; exfalso; lia.
Qed.

Lemma date_add_days (t : datetime) (n : Z) :
  Datetime.date (Datetime.add_days t n) = Datetime.date t + n.
Proof.
  unfold Datetime.date, Datetime.add_days. cbn [wall].
  apply Z.div_add. lia.
Qed.

Lemma days_from_dates (t : datetime) (n : nat) (cur : datetime) :
  In cur (days_from t n) ->
  exists k, 0 <= k < Z.of_nat n /\ Datetime.date cur = Datetime.date t + k.
Proof.
  revert t. induction n as [|n IH]; intros t Hin; [destruct Hin|].
  cbn [days_from] in Hin. destruct Hin as [<-|Hin].
  - exists 0. split; lia.
  - destruct (IH _ Hin) as [k [Hk Hd]]. exists (k + 1).
    rewrite date_add_days in Hd. split; lia.
Qed.

(** X16.  In the loop over the days of a week, an event that starts on
    one of the seven dates of the window, at its own UTC offset, is put in
    the section of a day exactly when that day is its date: the seven days
    of a week have seven different days of the month, so comparing the day
    of the month alone picks the right section and no other. *)
Theorem week_event_goes_to_its_day
        (date : Z) (events : list event) (e : event) (cur_datetime : datetime) :
  In cur_datetime (days_from (fst (DateInputter.input_week date)) 7) ->
  date <= Datetime.date (start_dateTime e) <= date + 6 ->
  (In e (events_on_day events cur_datetime)
   <-> In e events
       /\ Datetime.date cur_datetime = Datetime.date (start_dateTime e)).
Proof.
  intros Hcur He.
  destruct (days_from_dates _ _ _ Hcur) as [k [Hk Hd]].
  assert (Hstart : Datetime.date (fst (DateInputter.input_week date)) = date).
  { unfold Datetime.date, DateInputter.input_week. cbn [fst wall].
    apply Z.div_mul. lia. }
  rewrite Hstart in Hd.
  unfold events_on_day. rewrite filter_In, Z.eqb_eq.
  unfold Datetime.day. fold (day_of_month (Datetime.date (start_dateTime e))).
  fold (day_of_month (Datetime.date cur_datetime)).
  rewrite Hd.
  set (i := Datetime.date (start_dateTime e) - date).
  replace (Datetime.date (start_dateTime e)) with (date + i) by (unfold i; lia).
  split; intros [Hin Hday]; (split; [exact Hin|]).
  - f_equal. symmetry. apply (week_days_of_month_differ date i k); unfold i; try lia.
    exact Hday.
  - replace i with k by lia. reflexivity.
Qed.

Lemma week_event_goes_to_its_day_witness :
  In coding (events_on_day [standup; coding]
               (Datetime.add_days (fst (DateInputter.input_week 19723)) 0))
  <-> In coding [standup; coding]
      /\ Datetime.date (Datetime.add_days (fst (DateInputter.input_week 19723)) 0)
         = Datetime.date (start_dateTime coding).
Proof.
  apply (week_event_goes_to_its_day 19723 [standup; coding] coding).
  - left. vm_compute. reflexivity.
  - vm_compute. split; discriminate.
Defined.

(** ** An annotation cut by a line break *)

Lemma lazy_until_bracket_cut (g rest : string) :
  occurs "]" g = false ->
  lazy_until_bracket (g +++ String newline rest) = None.
Proof.
  induction g as [|x g IH]; [reflexivity|].
  cbn [occurs String.append lazy_until_bracket].
  intro H. apply orb_false_iff in H. destruct H as [Hx Hg].
  rewrite Hx, IH by exact Hg. destruct (Ascii.eqb x newline); reflexivity.
Qed.

(** X17.  An annotation whose closing bracket comes only after a line
    break is not an annotation: the description is read as if it began
    after the line break, and when nothing there is an annotation the event
    is filed under its summary (src/analyze.py and src/gcal/audit.py). *)
Theorem annotation_cut_by_newline
        (e : event) (pre g rest : string) :
  occurs "[" pre = false ->
  occurs "[" g = false ->
  occurs "]" g = false ->
  description e = Some (pre +++ "[Tags:" +++ g +++ String newline rest) ->
  findall_tags (pre +++ "[Tags:" +++ g +++ String newline rest) = findall_tags rest
  /\ (findall_tags rest = [] ->
      Analyze.extract_event_types e = [summary e]
      /\ forall self, GCalAuditor.extract_event_categories self e = [summary e]).
Proof.
  intros Hpre Hg Hb Hd.
  assert (Hfind : findall_tags (pre +++ "[Tags:" +++ g +++ String newline rest)
                  = findall_tags rest).
  { unfold findall_tags. rewrite findall_skips_text by exact Hpre.
    change ("[Tags:" +++ g +++ String newline rest)
      with (String "[" ("Tags:" +++ g +++ String newline rest)).
    cbn [findall_from].
    change (String "[" ("Tags:" +++ g +++ String newline rest))
      with ("[Tags:" +++ g +++ String newline rest).
    assert (Hnone : tag_group ("[Tags:" +++ g +++ String newline rest) = None).
    { unfold tag_group. rewrite prefix_tags, substring_after_tags.
      apply lazy_until_bracket_cut, Hb. }
    rewrite Hnone.
    replace ("Tags:" +++ g +++ String newline rest)
      with (("Tags:" +++ g +++ String newline "") +++ rest)
      by (rewrite !append_associative; reflexivity).
    apply findall_skips_text.
    rewrite !occurs_app, Hg. reflexivity. }
  split; [exact Hfind|].
  intro Hrest.
  assert (Ha : Analyze.extract_event_types e = [summary e]).
  { unfold Analyze.extract_event_types. rewrite Hd, Hfind, Hrest. reflexivity. }
  split; [exact Ha|].
  intro self. rewrite auditor_extract_by_flag, Ha.
  destruct (GCalAuditor.first_tag_only self); reflexivity.
Qed.

Lemma annotation_cut_by_newline_witness :
  Analyze.extract_event_types
    {| start_dateTime := at_utc_minus_5 19723 9 0;
       end_dateTime := at_utc_minus_5 19723 10 0;
       summary := "Sync";
       description :=
         Some ("Notes " +++ "[Tags:" +++ " Work," +++ String newline " Play]") |}
  = ["Sync"].
Proof.
  refine (proj1 (proj2 (annotation_cut_by_newline
                   {| start_dateTime := at_utc_minus_5 19723 9 0;
                      end_dateTime := at_utc_minus_5 19723 10 0;
                      summary := "Sync";
                      description :=
                        Some ("Notes " +++ "[Tags:" +++ " Work,"
                              +++ String newline " Play]") |}
                   "Notes " " Work," " Play]" _ _ _ _) _)).
  - reflexivity.
  - reflexivity.
  - reflexivity.
  - reflexivity.
  - reflexivity.
Defined.

(** ** The answers that set the flag *)

Lemma lower_one (c : ascii) (t : ascii) :
  In t ["y"%char; "e"%char; "s"%char] ->
  lower (String c EmptyString) = String t EmptyString ->
  c = t \/ nat_of_ascii c = (nat_of_ascii t - 32)%nat.
Proof.
  intros Ht H.
  destruct c as [[] [] [] [] [] [] [] []];
    destruct Ht as [<-|[<-|[<-|[]]]];
    vm_compute in H;
    first [ discriminate H | left; reflexivity | right; reflexivity ].
Qed.

Lemma lower_cons (c : ascii) (s : string) (t : ascii) (r : string) :
  lower (String c s) = String t r ->
  lower (String c EmptyString) = String t EmptyString /\ lower s = r.
Proof.
  intro H. cbn [lower] in H |- *. injection H as H1 H2.
  split; [f_equal; exact H1|exact H2].
Qed.

Lemma lower_nil (s : string) : lower s = EmptyString -> s = EmptyString.
Proof. destruct s; [reflexivity|discriminate]. Qed.

Lemma upper_of (c : ascii) (n : nat) :
  nat_of_ascii c = n -> c = ascii_of_nat n.
Proof. intros <-. symmetry. apply ascii_nat_embedding. Qed.

(** X18.  [set_tag_option] sets the flag exactly for the answers "y" and
    "yes" in any mix of capitals; every other answer, the empty one
    included, leaves it off. *)
Theorem tag_option_answers (answer : string) (w : world GCalAuditor.self_t) :
  GCalAuditor._audit_first_tag_only
    (self (snd (GCalAuditor.set_tag_option answer w))) = Some true
  <-> In answer ["y"; "Y"; "yes"; "yeS"; "yEs"; "yES"; "Yes"; "YeS"; "YEs"; "YES"].
Proof.
  rewrite set_tag_option_run. cbn [snd self GCalAuditor._audit_first_tag_only].
  split.
  - intro H. injection H as H. unfold tag_flag in H.
    apply orb_true_iff in H. destruct H as [H|H]; apply String.eqb_eq in H.
    + destruct answer as [|c1 [|c2 [|c3 r]]]; try discriminate H.
      destruct (lower_cons _ _ _ _ H) as [H1 H']. clear H.
      destruct (lower_cons _ _ _ _ H') as [H2 H'']. clear H'.
      destruct (lower_cons _ _ _ _ H'') as [H3 H4]. clear H''.
      apply lower_nil in H4. subst r.
      apply lower_one in H1; [|simpl; tauto].
      apply lower_one in H2; [|simpl; tauto].
      apply lower_one in H3; [|simpl; tauto].
      destruct H1 as [->|H1]; [|apply upper_of in H1; subst c1];
        (destruct H2 as [->|H2]; [|apply upper_of in H2; subst c2]);
        (destruct H3 as [->|H3]; [|apply upper_of in H3; subst c3]);
        vm_compute; tauto.
    + destruct answer as [|c1 [|c2 r]]; try discriminate H.
      destruct (lower_cons _ _ _ _ H) as [H1 _].
      apply lower_one in H1; [|simpl; tauto].
      destruct H1 as [->|H1]; [|apply upper_of in H1; subst c1];
        vm_compute; tauto.
  - intro H. simpl in H.
    repeat (destruct H as [<-|H]; [reflexivity|]). destruct H.
Qed.

Example ex_strip : Py.strip "  Work " = "Work". Proof. reflexivity. Qed.
Example ex_split : Py.split "," "a, b,,c" = ["a"; " b"; ""; "c"]. Proof. reflexivity. Qed.
Example ex_findall : Py.findall_tags "x [Tags: A, B] y [Tags:C][Tags:" = [" A, B"; "C"]. Proof. reflexivity. Qed.
Example ex_findall2 : Py.findall_tags "[Tags:[Tags:q]" = ["[Tags:q"]. Proof. reflexivity. Qed.
Example ex_round :
  Py.str_float (Py.round2 (PrimFloat.mul (PrimFloat.div (Py.float_of_int 7200) (Py.float_of_int 86400)) 100)) = "8.33"
  /\ Py.str_float (Py.round2 (PrimFloat.mul (PrimFloat.div (Py.float_of_int 43200) (Py.float_of_int 86400)) 100)) = "50.0"
  /\ Py.fmt_2f (Py.round2 (PrimFloat.mul (PrimFloat.div (Py.float_of_int 43200) (Py.float_of_int 86400)) 100)) = "50.00"
  /\ Py.str_float (Py.round2 (PrimFloat.mul (PrimFloat.div (Py.float_of_int 108) (Py.float_of_int 86400)) 100)) = "0.12"
  /\ Py.str_float (Py.round2 (PrimFloat.mul (PrimFloat.div (Py.float_of_int (-3600)) (Py.float_of_int 86400)) 100)) = "-4.17"
  /\ Py.str_float (Py.round2 (PrimFloat.mul (PrimFloat.div (Py.float_of_int 3600) (Py.float_of_int 86399)) 100)) = "4.17".
Proof. vm_compute. repeat split. Qed.
Example ex_sorted : Py.sorted_desc [("a", 1); ("b", 3); ("c", 1); ("d", 3)] = [("b", 3); ("d", 3); ("a", 1); ("c", 1)].
Proof. reflexivity. Qed.
Example ex_fmt : Py.fmt_02d 5 = "05" /\ Py.str_int (-12) = "-12" /\ Py.center "ab" 5 = " ab  ". Proof. repeat split. Qed.
Example ex_civil :
  Datetime.civil 0 = (1970, 1, 1) /\ Datetime.civil 19723 = (2024, 1, 1)
  /\ Datetime.civil 19782 = (2024, 2, 29) /\ Datetime.civil 19783 = (2024, 3, 1)
  /\ Datetime.civil (-1) = (1969, 12, 31) /\ Datetime.civil 11016 = (2000, 2, 29)
  /\ Datetime.civil 20088 = (2024, 12, 31)
  /\ Datetime.weekday {| wall := 19723 * 86400; utcoffset := 0 |} = 0.
Proof. vm_compute. repeat split. Qed.
